(** * Email deliverability checker: the five script variants, embedded

    The repository holds five variants of one script (eemail.py, emailv8.py,
    emailv12.py, emailv13.py and "eeemail 2.py").  Each one checks an address
    in stages: a regular expression, an MX lookup, an SMTP session for the
    address and, in most variants, a second SMTP session for a made-up
    recipient.

    Strings are [string]s over 8-bit characters.  The calls into dnspython and
    smtplib are oracles of the network: each call either returns a value or
    raises, and the answer may depend on everything that happened before.
    Every call and its answer is appended to a transcript, so that statements
    about what the code did on the network are statements about a list.
    [print], [logging] and [server.set_debuglevel] do not touch the network
    and are left out. *)

From Stdlib Require Import String Ascii List ZArith NArith Lia Bool Arith Permutation.
Import ListNotations.
Local Open Scope string_scope.
Local Open Scope list_scope.

(** ** Python strings *)

Module PyStr.

Definition code (c : ascii) : N := N_of_ascii c.

Definition in_range (lo hi c : ascii) : bool :=
  (code lo <=? code c)%N && (code c <=? code hi)%N.

Definition newline : ascii := "010"%char.

(** [str.split(sep)] for a one-character separator. *)
Fixpoint split (sep : ascii) (s : string) : list string :=
  match s with
  | EmptyString => [EmptyString]
  | String c s' =>
      if Ascii.eqb c sep then EmptyString :: split sep s'
      else match split sep s' with
           | h :: t => String c h :: t
           | [] => [String c EmptyString]
           end
  end.

(** [str.lower()] on code points below 256: A-Z and the Latin-1 capitals. *)
Definition lower_char (c : ascii) : ascii :=
  if in_range "A" "Z" c then ascii_of_N (code c + 32)
  else if (192 <=? code c)%N && (code c <=? 222)%N && negb (code c =? 215)%N
       then ascii_of_N (code c + 32)
       else c.

Fixpoint lower (s : string) : string :=
  match s with
  | EmptyString => EmptyString
  | String c s' => String (lower_char c) (lower s')
  end.

Fixpoint all_in (cls : ascii -> bool) (s : string) : bool :=
  match s with
  | EmptyString => true
  | String c s' => cls c && all_in cls s'
  end.

Fixpoint count (c : ascii) (s : string) : nat :=
  match s with
  | EmptyString => 0
  | String c' s' => (if Ascii.eqb c' c then 1 else 0) + count c s'
  end.

Definition nonempty (s : string) : bool :=
  match s with EmptyString => false | String _ _ => true end.

(** The characters below 256 that [str.strip()] removes. *)
Definition is_space (c : ascii) : bool :=
  ((9 <=? code c)%N && (code c <=? 13)%N) || ((28 <=? code c)%N && (code c <=? 32)%N)
  || (code c =? 133)%N || (code c =? 160)%N.

Fixpoint lstrip (s : string) : string :=
  match s with
  | EmptyString => EmptyString
  | String c s' => if is_space c then lstrip s' else s
  end.

Fixpoint rstrip (s : string) : string :=
  match s with
  | EmptyString => EmptyString
  | String c s' =>
      if is_space c && negb (nonempty (rstrip s')) then EmptyString
      else String c (rstrip s')
  end.

(** [str.strip()] *)
Definition strip (s : string) : string := rstrip (lstrip s).

End PyStr.

(** ** The regular expression

    [EMAIL_REGEX] only uses anchors, literal characters and [+] applied to a
    character class, in sequence; the outer group captures and does not change
    whether a match exists.  [match_here] is the backtracking matcher for
    such patterns: [re.match] tries the pattern at position 0 only. *)

Module Re.

Inductive item : Type :=
| Bol                            (* ^ *)
| Eol                            (* $ *)
| Lit (c : ascii)
| Plus (cls : ascii -> bool).    (* [...]+ *)

(** [$] without MULTILINE: at the end, or just before a final newline. *)
Definition at_end (s : string) : bool :=
  match s with
  | EmptyString => true
  | String c EmptyString => Ascii.eqb c PyStr.newline
  | _ => false
  end.

(** One or more characters of [cls], longest first, then the rest [k]. *)
Fixpoint match_plus (cls : ascii -> bool) (k : string -> bool) (s : string) : bool :=
  match s with
  | EmptyString => false
  | String c s' => cls c && (match_plus cls k s' || k s')
  end.

Fixpoint match_here (p : list item) (at_start : bool) (s : string) {struct p} : bool :=
  match p with
  | [] => true
  | Bol :: p' => at_start && match_here p' at_start s
  | Eol :: p' => at_end s && match_here p' at_start s
  | Lit c :: p' =>
      match s with
      | EmptyString => false
      | String c' s' => Ascii.eqb c c' && match_here p' false s'
      end
  | Plus cls :: p' => match_plus cls (match_here p' false) s
  end.

(** [re.match(p, s) is not None] *)
Definition matches (p : list item) (s : string) : bool := match_here p true s.

End Re.

(** ** check_syntax (the same in all five variants) *)

Definition alnum (c : ascii) : bool :=
  PyStr.in_range "a" "z" c || PyStr.in_range "A" "Z" c || PyStr.in_range "0" "9" c.

(** [[a-zA-Z0-9_.+-]] *)
Definition local_char (c : ascii) : bool :=
  alnum c || Ascii.eqb c "_" || Ascii.eqb c "." || Ascii.eqb c "+" || Ascii.eqb c "-".

(** [[a-zA-Z0-9-]] *)
Definition label_char (c : ascii) : bool :=
  alnum c || Ascii.eqb c "-".

(** [[a-zA-Z0-9-.]]: after the range 0-9 the hyphen and the dot are literals. *)
Definition tail_char (c : ascii) : bool :=
  alnum c || Ascii.eqb c "-" || Ascii.eqb c ".".

(** [r"(^[a-zA-Z0-9_.+-]+@[a-zA-Z0-9-]+\.[a-zA-Z0-9-.]+$)"] *)
Definition EMAIL_REGEX : list Re.item :=
  [Re.Bol; Re.Plus local_char; Re.Lit "@"; Re.Plus label_char; Re.Lit ".";
   Re.Plus tail_char; Re.Eol].

Definition check_syntax (email : string) : bool := Re.matches EMAIL_REGEX email.

(** [domain.lower() == 'gmail.com'] *)
Definition is_gmail_domain (domain : string) : bool :=
  String.eqb (PyStr.lower domain) "gmail.com".


(** ** get_user_emails (the same in eemail.py, "eeemail 2.py", emailv8.py and
    emailv12.py)

    [stdin] holds the lines that [input] will read, one per call; when they
    run out [input] raises EOFError, which nothing catches: [None]. *)

(** [email.lower() == 'done'], for the stripped line *)
Definition is_done (line : string) : bool :=
  String.eqb (PyStr.lower (PyStr.strip line)) "done".

Fixpoint get_user_emails_from (stdin : list string) (email_list : list string)
  : option (list string) :=
  match stdin with
  | [] => None
  | line :: stdin' =>
      let email := PyStr.strip line in
      if String.eqb (PyStr.lower email) "done" then Some email_list
      else get_user_emails_from stdin' (email_list ++ [email])
  end.

Definition get_user_emails (stdin : list string) : option (list string) :=
  get_user_emails_from stdin [].

(** Truth value of a list. *)
Definition some {A} (l : list A) : bool :=
  match l with [] => false | _ :: _ => true end.

(** ** The network and the effects of a call

    [Result] is what a Python call gives back: a value, or an exception. *)

Inductive Exn : Type :=
| NoAnswer          (* dns.resolver.NoAnswer *)
| NXDOMAIN          (* dns.resolver.NXDOMAIN *)
| Timeout           (* dns.exception.Timeout *)
| IndexError
| OtherException.   (* anything else: smtplib and socket errors, other DNS errors,
                       ValueError *)

Inductive Result (A : Type) : Type :=
| Val (a : A)
| Exc (e : Exn).
Arguments Val {A} a.
Arguments Exc {A} e.

Record MXRecord : Type := { preference : Z; exchange : string }.

(** An SMTP reply [(code, message)]. *)
Definition Reply : Type := (Z * string)%type.

(** One entry per library call, with what the call gave back.  For the SMTP
    calls [None] and [false] stand for a raised smtplib or socket exception;
    none of those is a [dns.exception.Timeout].  A call that returns gives
    the reply of the server, whatever its code.  Leaving a [with] block sends
    QUIT: [Exit false] stands for a reply with a code other than 221, on
    which [__exit__] raises SMTPResponseException; a connection lost at that
    point is swallowed by [__exit__] and is an [Exit true]. *)
Inductive Event : Type :=
| Resolve (domain : string) (answer : Result (list MXRecord))  (* dns.resolver.resolve(domain, 'MX') *)
| Connect (host : string) (ok : bool)                          (* smtplib.SMTP(host) *)
| Helo (reply : option Reply)                                  (* server.helo() *)
| EhloOrHelo (ok : bool)                                       (* server.ehlo_or_helo_if_needed() *)
| Mail (sender : string) (reply : option Reply)                (* server.mail(sender) *)
| Rcpt (recipient : string) (reply : option Reply)             (* server.rcpt(recipient) *)
| Quit (reply : option Reply)                                  (* server.quit() *)
| Exit (ok : bool)                                             (* leaving a with block *)
| Sleep (seconds : Z).                                         (* time.sleep(seconds) *)

Definition Transcript : Type := list Event.

Record Net : Type := {
  net_resolve : Transcript -> string -> Result (list MXRecord);
  net_connect : Transcript -> string -> bool;
  net_helo : Transcript -> option Reply;
  net_ehlo_or_helo : Transcript -> bool;
  net_mail : Transcript -> string -> option Reply;
  net_rcpt : Transcript -> string -> option Reply;
  net_quit : Transcript -> option Reply;
  net_exit : Transcript -> bool
}.

(** A computation reads the network, extends the transcript and returns or
    raises. *)
Definition M (A : Type) : Type := Net -> Transcript -> Result A * Transcript.

Definition ret {A} (a : A) : M A := fun _ w => (Val a, w).

Definition raise {A} (e : Exn) : M A := fun _ w => (Exc e, w).

Definition bind {A B} (m : M A) (k : A -> M B) : M B :=
  fun net w =>
    match m net w with
    | (Val a, w') => k a net w'
    | (Exc e, w') => (Exc e, w')
    end.

Notation "x <- m ;; k" := (bind m (fun x => k))
  (at level 61, m at next level, right associativity).
Notation "m ;;; k" := (bind m (fun _ => k))
  (at level 61, right associativity).

(** [try: body  except ...: handler] *)
Definition try_except {A} (body : M A) (handler : Exn -> M A) : M A :=
  fun net w =>
    match body net w with
    | (Val a, w') => (Val a, w')
    | (Exc e, w') => handler e net w'
    end.

Definition of_option {A} (o : option A) : Result A :=
  match o with Some a => Val a | None => Exc OtherException end.

Definition of_bool (ok : bool) : Result unit :=
  if ok then Val tt else Exc OtherException.

(** [l[i]] *)
Definition index {A} (l : list A) (i : nat) : M A :=
  match nth_error l i with
  | Some a => ret a
  | None => raise IndexError
  end.

Definition dns_resolve (domain : string) : M (list MXRecord) :=
  fun net w => let a := net_resolve net w domain in (a, w ++ [Resolve domain a]).

Definition SMTP (host : string) : M unit :=
  fun net w => let ok := net_connect net w host in (of_bool ok, w ++ [Connect host ok]).

Definition helo : M Reply :=
  fun net w => let r := net_helo net w in (of_option r, w ++ [Helo r]).

Definition ehlo_or_helo_if_needed : M unit :=
  fun net w => let ok := net_ehlo_or_helo net w in (of_bool ok, w ++ [EhloOrHelo ok]).

Definition mail (sender : string) : M Reply :=
  fun net w => let r := net_mail net w sender in (of_option r, w ++ [Mail sender r]).

Definition rcpt (recipient : string) : M Reply :=
  fun net w => let r := net_rcpt net w recipient in (of_option r, w ++ [Rcpt recipient r]).

Definition quit : M Reply :=
  fun net w => let r := net_quit net w in (of_option r, w ++ [Quit r]).

Definition sleep (seconds : Z) : M unit :=
  fun _ w => (Val tt, w ++ [Sleep seconds]).

(** [with smtplib.SMTP(host, timeout=10) as server: body].  When the
    constructor raises, the block is not entered.  Otherwise QUIT is sent on
    the way out, however [body] ended, and the exception that [__exit__]
    raises when QUIT is answered with a code other than 221 replaces the
    outcome of [body]. *)
Definition with_SMTP {A} (host : string) (body : M A) : M A :=
  SMTP host ;;;
  fun net w =>
    let (r, w1) := body net w in
    let ok := net_exit net w1 in
    (if ok then r else Exc OtherException, w1 ++ [Exit ok]).

(** ** Spreadsheets

    [pd.DataFrame(rows, columns=...).to_excel(file, index=False, sheet_name=...)]
    writes one sheet, or raises; whether it succeeds is up to the disk, which
    may take into account what was written before. *)

Record Sheet : Type := {
  file : string;
  sheet_name : string;
  columns : list string;
  rows : list (list string)
}.

(** The sheets whose writing was attempted, each with whether it succeeded. *)
Definition Written : Type := list (Sheet * bool).

Definition Disk : Type := Written -> Sheet -> bool.

Definition to_excel (sheet : Sheet) (disk : Disk) (log : Written) : Result unit * Written :=
  let ok := disk log sheet in (of_bool ok, log ++ [(sheet, ok)]).

(** A list of pairs [(email, status)] as the rows of a sheet. *)
Definition pair_rows (l : list (string * string)) : list (list string) :=
  map (fun p => [fst p; snd p]) l.

(** ** eemail.py *)

Module Eemail.

Definition check_mail_server (domain : string) : M bool :=
  try_except
    (mx_records <- dns_resolve domain ;;
     ret (0 <? List.length mx_records)%nat)
    (fun e => match e with
              | NoAnswer | NXDOMAIN => ret false
              | _ => raise e
              end).

Definition check_connection (email : string) : M bool :=
  domain <- index (PyStr.split "@" email) 1 ;;
  try_except
    (mx_records <- dns_resolve domain ;;
     mx <- index mx_records 0 ;;
     let mx_record := exchange mx in
     SMTP mx_record ;;;
     helo ;;;
     quit ;;;
     ret true)
    (fun _ => ret false).

Definition check_catch_all (domain : string) : M bool :=
  try_except
    (mx_records <- dns_resolve domain ;;
     mx <- index mx_records 0 ;;
     let mx_record := exchange mx in
     SMTP mx_record ;;;
     helo ;;;
     if is_gmail_domain domain then
       mail "test@gmail.com" ;;;
       r <- rcpt "fake-email@gmail.com" ;;
       quit ;;;
       ret (negb (fst r =? 550)%Z)
     else
       mail "test@example.com" ;;;
       r <- rcpt ("fake-email@" ++ domain) ;;
       quit ;;;
       ret (fst r =? 250)%Z)
    (fun _ => ret false).

Definition validate_email (email : string) : M (bool * string) :=
  if negb (check_syntax email) then ret (false, "Invalid syntax") else
  domain <- index (PyStr.split "@" email) 1 ;;
  ok <- check_mail_server domain ;;
  if negb ok then ret (false, "No MX records found") else
  ok <- check_connection email ;;
  if negb ok then ret (false, "Cannot connect to mail server") else
  catch_all <- check_catch_all domain ;;
  if catch_all then ret (false, "Domain has catch-all enabled") else
  ret (true, "Email is valid").

End Eemail.

(** ** "eeemail 2.py" *)

Module Eeemail2.

Definition max_retries : nat := 3.

(** The [while retry_count < max_retries] loop, counted down:
    [remaining] is [max_retries - retry_count]. *)
Fixpoint check_mail_server_loop (remaining : nat) (domain : string) : M bool :=
  match remaining with
  | O => ret false
  | S remaining' =>
      try_except
        (mx_records <- dns_resolve domain ;;
         ret (0 <? List.length mx_records)%nat)
        (fun e => match e with
                  | NoAnswer | NXDOMAIN => ret false
                  | Timeout => check_mail_server_loop remaining' domain
                  | _ => raise e
                  end)
  end.

Definition check_mail_server (domain : string) : M bool :=
  check_mail_server_loop max_retries domain.

Definition check_connection (email : string) : M bool :=
  domain <- index (PyStr.split "@" email) 1 ;;
  try_except
    (mx_records <- dns_resolve domain ;;
     mx <- index mx_records 0 ;;
     let mx_record := exchange mx in
     SMTP mx_record ;;;
     helo ;;;
     quit ;;;
     ret true)
    (fun _ => ret false).

Fixpoint check_catch_all_loop (remaining : nat) (domain : string) : M bool :=
  match remaining with
  | O => ret false
  | S remaining' =>
      try_except
        (mx_records <- dns_resolve domain ;;
         mx <- index mx_records 0 ;;
         let mx_record := exchange mx in
         SMTP mx_record ;;;
         helo ;;;
         if is_gmail_domain domain then
           mail "test@gmail.com" ;;;
           r <- rcpt "fake-email@gmail.com" ;;
           quit ;;;
           ret (negb (fst r =? 550)%Z)
         else
           mail "test@example.com" ;;;
           r <- rcpt ("fake-email@" ++ domain) ;;
           quit ;;;
           ret (fst r =? 250)%Z)
        (fun e => match e with
                  | Timeout => check_catch_all_loop remaining' domain
                  | _ => ret false
                  end)
  end.

Definition check_catch_all (domain : string) : M bool :=
  check_catch_all_loop max_retries domain.

Definition validate_email (email : string) : M (bool * string) :=
  if negb (check_syntax email) then ret (false, "Invalid syntax") else
  domain <- index (PyStr.split "@" email) 1 ;;
  ok <- check_mail_server domain ;;
  if negb ok then ret (false, "No MX records found") else
  ok <- check_connection email ;;
  if negb ok then ret (false, "Cannot connect to mail server") else
  catch_all <- check_catch_all domain ;;
  if catch_all then ret (false, "Domain has catch-all enabled") else
  ret (true, "Email is valid").

(** The [for] loop of [validate_emails], with the two lists built so far. *)
Fixpoint validate_emails_loop (email_list : list string) (valid_emails : list string)
    (invalid_emails : list (string * string)) : M (list string * list (string * string)) :=
  match email_list with
  | [] => ret (valid_emails, invalid_emails)
  | email :: email_list' =>
      r <- validate_email email ;;
      if fst r then validate_emails_loop email_list' (valid_emails ++ [email]) invalid_emails
      else validate_emails_loop email_list' valid_emails (invalid_emails ++ [(email, snd r)])
  end.

Definition validate_emails (email_list : list string)
  : M (list string * list (string * string)) :=
  validate_emails_loop email_list [] [].

End Eeemail2.

(** ** The thread pool

    [ThreadPoolExecutor(max_workers)] with [as_completed].  The constructor
    raises ValueError unless [max_workers] is positive.  Every task that was
    submitted runs to its end, whatever the number of workers, and
    [as_completed] yields every future once: first, in the order of a set,
    those that have finished by the time of the call, then the others as they
    finish.  Which futures have finished by then is a matter of timing, so
    the futures may come in any order: [order] lists their positions in
    [futures] in the order in which they are yielded, and is a permutation of
    these positions. *)

Module Pool.

(** [for future in as_completed(futures): results.append(future.result())];
    [future.result()] raises what the task raised. *)
Fixpoint collect {A} (futures : list (Result A)) (order : list nat) (results : list A)
  : Result (list A) :=
  match order with
  | [] => Val results
  | i :: order' =>
      match nth i futures (Exc IndexError) with
      | Val r => collect futures order' (results ++ [r])
      | Exc e => Exc e
      end
  end.

(** The body shared by the [validate_emails] of emailv8, emailv12 and
    emailv13, which differ in [max_workers].  Task [i] runs against its own
    view [nets i] of the network, from an empty transcript. *)
Definition run_batch {A} (max_workers : nat) (task : string -> M A)
    (order : list nat) (nets : nat -> Net) (email_list : list string) : Result (list A) :=
  if (max_workers =? 0)%nat then Exc OtherException else
  let futures :=
    map (fun p => fst (task (snd p) (nets (fst p)) []))
        (combine (seq 0 (List.length email_list)) email_list) in
  collect futures order [].

End Pool.

(** ** emailv8.py *)

Module Emailv8.

Definition check_mail_server (domain : string) : M bool :=
  try_except
    (mx_records <- dns_resolve domain ;;
     ret (0 <? List.length mx_records)%nat)
    (fun e => match e with
              | NoAnswer | NXDOMAIN => ret false
              | Timeout => ret false
              | _ => raise e
              end).

Definition check_connection (email : string) : M bool :=
  domain <- index (PyStr.split "@" email) 1 ;;
  try_except
    (mx_records <- dns_resolve domain ;;
     mx <- index mx_records 0 ;;
     let mx_record := exchange mx in
     with_SMTP mx_record ehlo_or_helo_if_needed ;;;
     ret true)
    (fun _ => ret false).

Definition check_catch_all (domain : string) : M bool :=
  try_except
    (mx_records <- dns_resolve domain ;;
     mx <- index mx_records 0 ;;
     let mx_record := exchange mx in
     with_SMTP mx_record
       (ehlo_or_helo_if_needed ;;;
        if is_gmail_domain domain then
          mail "test@gmail.com" ;;;
          r <- rcpt "fake-email@gmail.com" ;;
          ret (negb (fst r =? 550)%Z)
        else
          mail "test@example.com" ;;;
          r <- rcpt ("fake-email@" ++ domain) ;;
          ret (fst r =? 250)%Z))
    (fun _ => ret false).

Definition validate_email (email : string) : M (string * string) :=
  if negb (check_syntax email) then ret (email, "Invalid syntax") else
  domain <- index (PyStr.split "@" email) 1 ;;
  ok <- check_mail_server domain ;;
  if negb ok then ret (email, "No MX records found") else
  ok <- check_connection email ;;
  if negb ok then ret (email, "Cannot connect to mail server") else
  catch_all <- check_catch_all domain ;;
  if catch_all then ret (email, "Domain has catch-all enabled") else
  ret (email, "Valid").

Definition max_workers : nat := 10.

Definition validate_emails := Pool.run_batch max_workers validate_email.

(** The [try] block covers both sheets; the handler only prints. *)
Definition save_to_excel (emails : list (string * string))
    (valid_filename invalid_filename : string) (disk : Disk) (log : Written)
  : Result unit * Written :=
  let valid_emails := filter (fun p => String.eqb (snd p) "Valid") emails in
  let invalid_emails := filter (fun p => negb (String.eqb (snd p) "Valid")) emails in
  let (r1, log1) :=
    if some valid_emails then
      to_excel {| file := valid_filename; sheet_name := "Valid";
                  columns := ["Emails"; "Status"];
                  rows := pair_rows valid_emails |} disk log
    else (Val tt, log) in
  match r1 with
  | Exc _ => (Val tt, log1)
  | Val _ =>
      let (r2, log2) :=
        if some invalid_emails then
          to_excel {| file := invalid_filename; sheet_name := "Invalid";
                      columns := ["Emails"; "Status"];
                      rows := pair_rows invalid_emails |} disk log1
        else (Val tt, log1) in
      match r2 with
      | Exc _ => (Val tt, log2)
      | Val _ => (Val tt, log2)
      end
  end.

(** The main program: [None] when [input] raised EOFError. *)
Definition main (stdin : list string) (order : list nat) (nets : nat -> Net)
    (disk : Disk) : option (Result unit * Written) :=
  match get_user_emails stdin with
  | None => None
  | Some email_list =>
      Some (if some email_list then
              match validate_emails order nets email_list with
              | Val results =>
                  save_to_excel results "outputs/valid_emails.xlsx"
                    "outputs/invalid_emails.xlsx" disk []
              | Exc e => (Exc e, [])
              end
            else (Val tt, []))
  end.

End Emailv8.

(** ** emailv12.py *)

Module Emailv12.

Definition check_mail_server (domain : string) : M bool :=
  try_except
    (mx_records <- dns_resolve domain ;;
     ret (0 <? List.length mx_records)%nat)
    (fun _ => ret false).

Definition check_connection (email : string) : M bool :=
  domain <- index (PyStr.split "@" email) 1 ;;
  try_except
    (mx_records <- dns_resolve domain ;;
     mx <- index mx_records 0 ;;
     let mx_record := exchange mx in
     with_SMTP mx_record
       (ehlo_or_helo_if_needed ;;;
        mail "test@example.com" ;;;
        r <- rcpt email ;;
        if (fst r =? 250)%Z then ret true else ret false))
    (fun _ => ret false).

Definition check_catch_all (domain : string) : M bool :=
  try_except
    (mx_records <- dns_resolve domain ;;
     mx <- index mx_records 0 ;;
     let mx_record := exchange mx in
     with_SMTP mx_record
       (ehlo_or_helo_if_needed ;;;
        mail "test@example.com" ;;;
        r <- rcpt ("nonexistent@" ++ domain) ;;
        ret (fst r =? 250)%Z))
    (fun _ => ret false).

Definition validate_email (email : string) : M (string * string) :=
  if negb (check_syntax email) then ret (email, "Invalid syntax") else
  domain <- index (PyStr.split "@" email) 1 ;;
  ok <- check_mail_server domain ;;
  if negb ok then ret (email, "No MX records found") else
  catch_all <- check_catch_all domain ;;
  if catch_all then ret (email, "Valid") else   (* Consider catch-all domains as valid *)
  ok <- check_connection email ;;
  if negb ok then ret (email, "Cannot connect to mail server") else
  ret (email, "Valid").

Definition max_workers : nat := 50.

Definition validate_emails := Pool.run_batch max_workers validate_email.

(** The [try] block covers both sheets; the handler only prints. *)
Definition save_to_excel (emails : list (string * string))
    (valid_filename invalid_filename : string) (disk : Disk) (log : Written)
  : Result unit * Written :=
  let valid_emails := filter (fun p => String.eqb (snd p) "Valid") emails in
  let invalid_emails := filter (fun p => negb (String.eqb (snd p) "Valid")) emails in
  let (r1, log1) :=
    if some valid_emails then
      to_excel {| file := valid_filename; sheet_name := "Valid";
                  columns := ["Email"; "Status"];
                  rows := pair_rows valid_emails |} disk log
    else (Val tt, log) in
  match r1 with
  | Exc _ => (Val tt, log1)
  | Val _ =>
      let (r2, log2) :=
        if some invalid_emails then
          to_excel {| file := invalid_filename; sheet_name := "Invalid";
                      columns := ["Email"; "Status"];
                      rows := pair_rows invalid_emails |} disk log1
        else (Val tt, log1) in
      match r2 with
      | Exc _ => (Val tt, log2)
      | Val _ => (Val tt, log2)
      end
  end.

(** The main program: [None] when [input] raised EOFError. *)
Definition main (stdin : list string) (order : list nat) (nets : nat -> Net)
    (disk : Disk) : option (Result unit * Written) :=
  match get_user_emails stdin with
  | None => None
  | Some email_list =>
      Some (if some email_list then
              match validate_emails order nets email_list with
              | Val results =>
                  save_to_excel results "outputs/valid_emails.xlsx"
                    "outputs/invalid_emails.xlsx" disk []
              | Exc e => (Exc e, [])
              end
            else (Val tt, []))
  end.

End Emailv12.

(** ** emailv13.py *)

Module Emailv13.

Definition retries : nat := 3.

(** [for attempt in range(retries)] in [wrapper]; a loop that ends without
    [return] gives [None]. *)
Fixpoint retry_loop (func : M bool) (attempts : list nat) : M (option bool) :=
  match attempts with
  | [] => ret None
  | attempt :: attempts' =>
      result <- func ;;
      if result || (attempt =? retries - 1)%nat then ret (Some result)
      else sleep (2 ^ Z.of_nat attempt) ;;; retry_loop func attempts'
  end.

Definition retry_connection {A} (func : A -> M bool) : A -> M (option bool) :=
  fun args => retry_loop (func args) (seq 0 retries).

(** Truth value of [True], [False] and [None]. *)
Definition truthy (v : option bool) : bool :=
  match v with Some b => b | None => false end.

Definition check_mail_server_body (domain : string) : M bool :=
  try_except
    (mx_records <- dns_resolve domain ;;
     ret (0 <? List.length mx_records)%nat)
    (fun _ => ret false).

Definition check_mail_server := retry_connection check_mail_server_body.

(** Inside the [with] block the function returns [True] on 250 and 251; in
    every other case, and after an exception, control reaches the final
    [return False]. *)
Definition check_connection_body (email : string) : M bool :=
  domain <- index (PyStr.split "@" email) 1 ;;
  try_except
    (mx_records <- dns_resolve domain ;;
     mx <- index mx_records 0 ;;
     let server_address := exchange mx in
     with_SMTP server_address
       (ehlo_or_helo_if_needed ;;;
        mail "your-email@example.com" ;;;
        r <- rcpt email ;;
        ret ((fst r =? 250)%Z || (fst r =? 251)%Z)))
    (fun _ => ret false).

Definition check_connection := retry_connection check_connection_body.

Definition validate_email (email : string) : M (string * string) :=
  if negb (check_syntax email) then ret (email, "Invalid syntax") else
  domain <- index (PyStr.split "@" email) 1 ;;
  ok <- check_mail_server domain ;;
  if negb (truthy ok) then ret (email, "No MX records found") else
  ok <- check_connection email ;;
  if negb (truthy ok) then ret (email, "Cannot connect to mail server") else
  ret (email, "Valid").

Definition max_workers : nat := 50.

Definition validate_emails := Pool.run_batch max_workers validate_email.

(** Empty lines are not kept. *)
Fixpoint get_user_emails_from (stdin : list string) (email_list : list string)
  : option (list string) :=
  match stdin with
  | [] => None
  | line :: stdin' =>
      let email := PyStr.strip line in
      if String.eqb (PyStr.lower email) "done" then Some email_list
      else if PyStr.nonempty email then get_user_emails_from stdin' (email_list ++ [email])
      else get_user_emails_from stdin' email_list
  end.

Definition get_user_emails (stdin : list string) : option (list string) :=
  get_user_emails_from stdin [].

(** No [try] here: an exception of [to_excel] ends the function. *)
Definition save_to_excel (emails : list (string * string))
    (valid_filename invalid_filename : string) (disk : Disk) (log : Written)
  : Result unit * Written :=
  let valid_emails := filter (fun p => String.eqb (snd p) "Valid") emails in
  let invalid_emails := filter (fun p => negb (String.eqb (snd p) "Valid")) emails in
  let (r1, log1) :=
    if some valid_emails then
      to_excel {| file := valid_filename; sheet_name := "Valid";
                  columns := ["Email"; "Status"];
                  rows := pair_rows valid_emails |} disk log
    else (Val tt, log) in
  match r1 with
  | Exc e => (Exc e, log1)
  | Val _ =>
      if some invalid_emails then
        to_excel {| file := invalid_filename; sheet_name := "Invalid";
                    columns := ["Email"; "Status"];
                    rows := pair_rows invalid_emails |} disk log1
      else (Val tt, log1)
  end.

Definition main (stdin : list string) (order : list nat) (nets : nat -> Net)
    (disk : Disk) : option (Result unit * Written) :=
  match get_user_emails stdin with
  | None => None
  | Some email_list =>
      Some (if some email_list then
              match validate_emails order nets email_list with
              | Val results =>
                  save_to_excel results "outputs/valid_emails.xlsx"
                    "outputs/invalid_emails.xlsx" disk []
              | Exc e => (Exc e, [])
              end
            else (Val tt, []))
  end.

End Emailv13.

(** ** What a transcript shows *)

Fixpoint lookups (t : Transcript) : nat :=
  match t with
  | [] => 0
  | Resolve _ _ :: t' => S (lookups t')
  | _ :: t' => lookups t'
  end.

(** The hosts to which an SMTP connection was attempted, in order. *)
Fixpoint connected_hosts (t : Transcript) : list string :=
  match t with
  | [] => []
  | Connect host _ :: t' => host :: connected_hosts t'
  | _ :: t' => connected_hosts t'
  end.

Definition connects (t : Transcript) : nat := List.length (connected_hosts t).

Fixpoint sleeps (t : Transcript) : list Z :=
  match t with
  | [] => []
  | Sleep seconds :: t' => seconds :: sleeps t'
  | _ :: t' => sleeps t'
  end.

(** The domains that were looked up, in order. *)
Fixpoint resolved_domains (t : Transcript) : list string :=
  match t with
  | [] => []
  | Resolve domain _ :: t' => domain :: resolved_domains t'
  | _ :: t' => resolved_domains t'
  end.

(** An SMTP call that raised. *)
Definition smtp_failure (e : Event) : bool :=
  match e with
  | Connect _ false | Helo None | EhloOrHelo false | Mail _ None | Rcpt _ None
  | Quit None | Exit false => true
  | _ => false
  end.

Definition closed_cleanly (e : Event) : bool :=
  match e with
  | Quit (Some _) | Exit true => true
  | _ => false
  end.

(** The code of the reply to RCPT for [recipient], when that reply is the
    last event but one of [t] and the last event is a session closed without
    an exception. *)
Definition probe_code (recipient : string) (t : Transcript) : option Z :=
  match rev t with
  | closing :: Rcpt r (Some reply) :: _ =>
      if closed_cleanly closing && String.eqb r recipient then Some (fst reply) else None
  | _ => None
  end.

(** The recipients of the RCPT commands that were sent, in order. *)
Fixpoint rcpt_recipients (t : Transcript) : list string :=
  match t with
  | [] => []
  | Rcpt recipient _ :: t' => recipient :: rcpt_recipients t'
  | _ :: t' => rcpt_recipients t'
  end.

(** The seconds spent in [sleep]. *)
Definition slept (t : Transcript) : Z := fold_right Z.add 0%Z (sleeps t).

(** The message of an outcome, when there is an outcome. *)
Definition message_of {A} (r : Result (A * string)) : option string :=
  match r with
  | Val p => Some (snd p)
  | Exc _ => None
  end.

(** The rows of the sheets that were written, file by file. *)
Definition rows_written (file_name : string) (log : Written) : list (list string) :=
  flat_map (fun p => if snd p && String.eqb (file (fst p)) file_name
                     then rows (fst p) else [])
           log.

(** The senders of the MAIL commands that were sent, in order. *)
Fixpoint mail_senders (t : Transcript) : list string :=
  match t with
  | [] => []
  | Mail sender _ :: t' => sender :: mail_senders t'
  | _ :: t' => mail_senders t'
  end.

(** ** The specification's wording, for comparison *)

Module Spec.

(** "local part of [A-Za-z0-9_.+-]+, @, domain of labels drawn from
    [A-Za-z0-9-]+ separated by ." *)
Definition isSyntacticallyValid (address : string) : bool :=
  match PyStr.split "@" address with
  | [localPart; domain] =>
      PyStr.nonempty localPart && PyStr.all_in local_char localPart &&
      forallb (fun label => PyStr.nonempty label && PyStr.all_in label_char label)
              (PyStr.split "." domain)
  | _ => false
  end.

Inductive Status : Type := Valid | InvalidSyntax | NoMailServer | ConnectionFailed | CatchAll.

(** "Start -> SyntaxValidator -> DNSResolver -> SMTPProbe(real recipient) ->
    CatchAllDetector -> Valid", short-circuiting at the first stage that does
    not pass. *)
Definition pipeline (syntax : bool) (dns probe catch_all : M bool) : M Status :=
  if negb syntax then ret InvalidSyntax else
  ok <- dns ;;
  if negb ok then ret NoMailServer else
  ok <- probe ;;
  if negb ok then ret ConnectionFailed else
  positive <- catch_all ;;
  if positive then ret CatchAll else
  ret Valid.

(** "the MX set sorted ascending by preference" *)
Fixpoint insert_by_preference (mx : MXRecord) (l : list MXRecord) : list MXRecord :=
  match l with
  | [] => [mx]
  | mx' :: l' =>
      if (preference mx <=? preference mx')%Z then mx :: l
      else mx' :: insert_by_preference mx l'
  end.

Definition sorted_by_preference (l : list MXRecord) : list MXRecord :=
  fold_right insert_by_preference [] l.

End Spec.

(** The status that a message of the scripts stands for. *)
Definition status_of_message (message : string) : option Spec.Status :=
  if String.eqb message "Invalid syntax" then Some Spec.InvalidSyntax
  else if String.eqb message "No MX records found" then Some Spec.NoMailServer
  else if String.eqb message "Cannot connect to mail server" then Some Spec.ConnectionFailed
  else if String.eqb message "Domain has catch-all enabled" then Some Spec.CatchAll
  else if String.eqb message "Valid" || String.eqb message "Email is valid" then Some Spec.Valid
  else None.

(** The value of [email.split('@')[1]] when there is one. *)
Definition domain_part (email : string) : string :=
  nth 1 (PyStr.split "@" email) EmptyString.

(** A lookup after which [check_mail_server] of emailv13 is false: it raised,
    or it returned no record. *)
Definition lookup_failed (answer : Result (list MXRecord)) : bool :=
  match answer with
  | Val (_ :: _) => false
  | _ => true
  end.

(** No failed SMTP call is followed by anything. *)
Fixpoint failures_end_run (t : Transcript) : bool :=
  match t with
  | [] => true
  | e :: t' =>
      (negb (smtp_failure e) || match t' with [] => true | _ :: _ => false end)
      && failures_end_run t'
  end.

(** The host of the first record of the answer, as the library returned it. *)
Definition first_exchange (answer : Result (list MXRecord)) : list string :=
  match answer with
  | Val (mx :: _) => [exchange mx]
  | _ => []
  end.

(** The batch returned, with one outcome per address of [email_list] and
    every outcome the one that its task computed. *)
Definition one_outcome_per_address (task : string -> M (string * string))
    (nets : nat -> Net) (email_list : list string)
    (batch : Result (list (string * string))) : Prop :=
  exists results,
    batch = Val results /\
    List.length results = List.length email_list /\
    Permutation (map fst results) email_list /\
    Permutation (map Val results)
      (map (fun p => fst (task (snd p) (nets (fst p)) []))
           (combine (seq 0 (List.length email_list)) email_list)).

(** The messages of the outcomes that "eeemail 2.py" lists as invalid. *)
Definition failure_messages : list string :=
  ["Invalid syntax"; "No MX records found"; "Cannot connect to mail server";
   "Domain has catch-all enabled"].

(** [status == "Valid"] *)
Definition is_valid_row (p : string * string) : bool := String.eqb (snd p) "Valid".

(** What one attempt of [check_connection] of emailv13.py leaves in the
    transcript. *)
Definition attempt_facts (email : string) (b : bool) (t : Transcript) : Prop :=
  lookups t = 1 /\ connects t <= 1 /\ sleeps t = [] /\
  Forall (eq email) (rcpt_recipients t) /\
  (b = true ->
   exists pre c m, t = pre ++ [Rcpt email (Some (c, m)); Exit true]
                   /\ (c = 250 \/ c = 251)%Z).

(** ** What the network answers

    [answers net w e]: the event [e] records what [net] gives back to that
    call when it is made after [w]. *)
Definition answers (net : Net) (w : Transcript) (e : Event) : Prop :=
  match e with
  | Resolve domain answer => net_resolve net w domain = answer
  | Connect host ok => net_connect net w host = ok
  | Helo reply => net_helo net w = reply
  | EhloOrHelo ok => net_ehlo_or_helo net w = ok
  | Mail sender reply => net_mail net w sender = reply
  | Rcpt recipient reply => net_rcpt net w recipient = reply
  | Quit reply => net_quit net w = reply
  | Exit ok => net_exit net w = ok
  | Sleep _ => True
  end.

(** The calls of [t], made one after the other from [w] on, are answered by
    [net] as [t] records. *)
Fixpoint follows (net : Net) (w : Transcript) (t : Transcript) : Prop :=
  match t with
  | [] => True
  | e :: t' => answers net w e /\ follows net (w ++ [e]) t'
  end.

(** [n] lookups of [domain] that timed out. *)
Definition timeouts (domain : string) (n : nat) : Transcript :=
  repeat (Resolve domain (Exc Timeout)) n.

(** A probe that went through, in a session opened with [smtplib.SMTP(host)],
    greeted with [helo()] and closed with [quit()]: the lookup gave a first
    record, every call returned, whatever the reply to the greeting, to MAIL
    FROM and to QUIT, and RCPT was answered with [code]. *)
Definition quit_session (domain sender recipient : string) (code : Z) (t : Transcript)
  : Prop :=
  exists mx rest greeting accepted message bye,
    t = [Resolve domain (Val (mx :: rest)); Connect (exchange mx) true; Helo (Some greeting);
         Mail sender (Some accepted); Rcpt recipient (Some (code, message)); Quit (Some bye)].

(** The same in a [with] block: the greeting did not raise, MAIL FROM
    returned, whatever its reply, RCPT was answered with [code], and leaving
    the block did not raise. *)
Definition with_session (domain sender recipient : string) (code : Z) (t : Transcript)
  : Prop :=
  exists mx rest accepted message,
    t = [Resolve domain (Val (mx :: rest)); Connect (exchange mx) true; EhloOrHelo true;
         Mail sender (Some accepted); Rcpt recipient (Some (code, message)); Exit true].

(** A session of [sessions] that comes after fewer than [max_retries]
    lookups that timed out, as in the loop of "eeemail 2.py". *)
Definition after_timeouts (domain : string) (sessions : Z -> Transcript -> Prop)
    (code : Z) (t : Transcript) : Prop :=
  exists n t', n < Eeemail2.max_retries /\ t = timeouts domain n ++ t' /\ sessions code t'.

(** The session of [check_connection] of eemail.py and "eeemail 2.py" that
    went through: connect, [helo()] and [quit()] returned, whatever the
    replies. *)
Definition connection_session (domain : string) (t : Transcript) : Prop :=
  exists mx rest greeting bye,
    t = [Resolve domain (Val (mx :: rest)); Connect (exchange mx) true; Helo (Some greeting);
         Quit (Some bye)].

(** The check [run], started at [w], is decided by the sessions [sessions]
    and the verdict [verdict] on the code of the RCPT reply: on a network
    that answers the calls of a session [t] with code [code], the check makes
    exactly these calls and returns [verdict code]; on every network it
    returns without raising, the events that it adds are calls answered by
    the network, and it returns true only at the end of a session whose code
    has a true verdict. *)
Definition decided_by (net : Net) (run : M bool) (w : Transcript)
    (sessions : Z -> Transcript -> Prop) (verdict : Z -> bool) : Prop :=
  (forall code t, sessions code t -> follows net w t ->
                  run net w = (Val (verdict code), w ++ t)) /\
  (exists b t, run net w = (Val b, w ++ t) /\ follows net w t /\
     (b = true -> exists code, sessions code t /\ verdict code = true)).

(** The sender, the recipient and the verdict of the branch that
    [check_catch_all] of eemail.py, "eeemail 2.py" and emailv8.py takes for
    [domain]. *)
Definition probe_sender (domain : string) : string :=
  if is_gmail_domain domain then "test@gmail.com" else "test@example.com".

Definition probe_recipient (domain : string) : string :=
  if is_gmail_domain domain then "fake-email@gmail.com" else ("fake-email@" ++ domain)%string.

Definition probe_verdict (domain : string) (code : Z) : bool :=
  if is_gmail_domain domain then negb (code =? 550)%Z else (code =? 250)%Z.

(** ** Example networks *)

(** The first [timeouts] lookups time out and the later ones give [answer];
    connections are accepted when [reachable]; RCPT is answered with
    [rcpt_code] and every other command is accepted. *)
Definition slow_net (timeouts : nat) (answer : Result (list MXRecord))
    (reachable : bool) (rcpt_code : Z) : Net :=
  {| net_resolve := fun w _ => if (lookups w <? timeouts)%nat then Exc Timeout else answer;
     net_connect := fun _ _ => reachable;
     net_helo := fun _ => Some (250%Z, "ok");
     net_ehlo_or_helo := fun _ => true;
     net_mail := fun _ _ => Some (250%Z, "ok");
     net_rcpt := fun _ _ => Some (rcpt_code, "ok");
     net_quit := fun _ => Some (221%Z, "bye");
     net_exit := fun _ => true |}.

Definition steady_net : Result (list MXRecord) -> bool -> Z -> Net := slow_net 0.

(** As [net], but the connection is lost by the time the session is to be
    closed: [server.quit()] raises SMTPServerDisconnected.  The [__exit__] of
    a [with] block swallows that exception, so leaving the block does not
    raise. *)
Definition lost_on_close (net : Net) : Net :=
  {| net_resolve := net_resolve net;
     net_connect := net_connect net;
     net_helo := net_helo net;
     net_ehlo_or_helo := net_ehlo_or_helo net;
     net_mail := net_mail net;
     net_rcpt := net_rcpt net;
     net_quit := fun _ => None;
     net_exit := fun _ => true |}.

(** As [net], but QUIT is answered with 421 instead of 221: [server.quit()]
    returns that reply, and leaving a [with] block raises
    SMTPResponseException. *)
Definition quit_refused (net : Net) : Net :=
  {| net_resolve := net_resolve net;
     net_connect := net_connect net;
     net_helo := net_helo net;
     net_ehlo_or_helo := net_ehlo_or_helo net;
     net_mail := net_mail net;
     net_rcpt := net_rcpt net;
     net_quit := fun _ => Some (421%Z, "closing");
     net_exit := fun _ => false |}.

(** As [net], but HELO is answered with 500 and MAIL FROM with 550; both
    calls return their reply. *)
Definition sender_rejected (net : Net) : Net :=
  {| net_resolve := net_resolve net;
     net_connect := net_connect net;
     net_helo := fun _ => Some (500%Z, "unrecognised");
     net_ehlo_or_helo := net_ehlo_or_helo net;
     net_mail := fun _ _ => Some (550%Z, "rejected");
     net_rcpt := net_rcpt net;
     net_quit := net_quit net;
     net_exit := net_exit net |}.

Definition one_mx : Result (list MXRecord) :=
  Val [{| preference := 10; exchange := "mx.example.com." |}].

Definition two_mx : Result (list MXRecord) :=
  Val [{| preference := 20; exchange := "mx2.example.com." |};
       {| preference := 10; exchange := "mx1.example.com." |}].

(** * Properties *)

(** ** Strings and the pattern *)

#[local] Arguments Ascii.eqb : simpl never.
#[local] Arguments String.eqb : simpl never.

Section StringFacts.

Lemma count_append (c : ascii) (a b : string) :
  PyStr.count c (a ++ b) = PyStr.count c a + PyStr.count c b.
Proof. induction a as [|x a IH]; simpl; [reflexivity | rewrite IH; lia]. Qed.

Lemma all_in_count (cls : ascii -> bool) (c : ascii) (s : string) :
  cls c = false -> PyStr.all_in cls s = true -> PyStr.count c s = 0.
Proof.
  intros Hc. induction s as [|x s IH]; simpl; [reflexivity|].
  intros H. apply andb_true_iff in H as [Hx Hs].
  destruct (Ascii.eqb_spec x c) as [->|_]; [congruence|].
  now rewrite IH.
Qed.

Lemma split_no_sep (sep : ascii) (s : string) :
  PyStr.count sep s = 0 -> PyStr.split sep s = [s].
Proof.
  induction s as [|x s IH]; simpl; [reflexivity|].
  destruct (Ascii.eqb x sep); [discriminate|].
  simpl. intros H. now rewrite IH.
Qed.

Lemma split_at_sep (sep : ascii) (a b : string) :
  PyStr.count sep a = 0 ->
  PyStr.split sep (a ++ String sep b) = a :: PyStr.split sep b.
Proof.
  induction a as [|x a IH]; simpl.
  - intros _. now rewrite Ascii.eqb_refl.
  - destruct (Ascii.eqb x sep); [discriminate|].
    simpl. intros H. now rewrite IH.
Qed.

Lemma match_plus_iff (cls : ascii -> bool) (k : string -> bool) (s : string) :
  Re.match_plus cls k s = true <->
  exists u v, s = (u ++ v)%string /\ PyStr.nonempty u = true /\ PyStr.all_in cls u = true /\ k v = true.
Proof.
  induction s as [|c s IH]; simpl.
  - split; [discriminate|].
    intros (u & v & E & Hu & _). destruct u; simpl in *; discriminate.
  - rewrite andb_true_iff, orb_true_iff, IH. split.
    + intros [Hc [(u & v & -> & Hu & Hall & Hk) | Hk]].
      * exists (String c u), v. simpl. now rewrite Hc, Hall.
      * exists (String c EmptyString), s. simpl. now rewrite Hc.
    + intros (u & v & E & Hu & Hall & Hk).
      destruct u as [|x u]; [discriminate|].
      simpl in E, Hall. injection E as <- ->.
      apply andb_true_iff in Hall as [Hc Hall]. split; [assumption|].
      destruct u as [|y u].
      * right. exact Hk.
      * left. exists (String y u), v. auto.
Qed.

Lemma at_end_iff (s : string) :
  Re.at_end s = true <-> s = EmptyString \/ s = String PyStr.newline EmptyString.
Proof.
  destruct s as [|c [|d s]]; simpl.
  - tauto.
  - split.
    + intros H. apply Ascii.eqb_eq in H. subst. now right.
    + intros [H|H]; [discriminate|]. injection H as ->. apply Ascii.eqb_refl.
  - split; [discriminate|]. intros [H|H]; discriminate.
Qed.

(** What [check_syntax] accepts, as a decomposition of the string. *)
Lemma check_syntax_iff (email : string) :
  check_syntax email = true <->
  exists localPart label rest nl,
    email = (localPart ++ "@" ++ label ++ "." ++ rest ++ nl)%string /\
    PyStr.nonempty localPart = true /\ PyStr.all_in local_char localPart = true /\
    PyStr.nonempty label = true /\ PyStr.all_in label_char label = true /\
    PyStr.nonempty rest = true /\ PyStr.all_in tail_char rest = true /\
    (nl = EmptyString \/ nl = String PyStr.newline EmptyString).
Proof.
  unfold check_syntax, Re.matches, EMAIL_REGEX. simpl Re.match_here.
  rewrite match_plus_iff. split.
  - intros (l & v & -> & Hl & Hla & Hk).
    destruct v as [|c v]; [discriminate|].
    apply andb_true_iff in Hk as [Hc Hk]. apply Ascii.eqb_eq in Hc. subst c.
    apply match_plus_iff in Hk as (d & v' & -> & Hd & Hda & Hk).
    destruct v' as [|c v']; [discriminate|].
    apply andb_true_iff in Hk as [Hc Hk]. apply Ascii.eqb_eq in Hc. subst c.
    apply match_plus_iff in Hk as (r & nl & -> & Hr & Hra & Hk).
    apply andb_true_iff in Hk as [Hk _]. apply at_end_iff in Hk.
    exists l, d, r, nl. simpl. auto 10.
  - intros (l & d & r & nl & -> & Hl & Hla & Hd & Hda & Hr & Hra & Hnl).
    exists l, ("@" ++ d ++ "." ++ r ++ nl)%string. repeat split; try assumption.
    simpl. apply match_plus_iff.
    exists d, ("." ++ r ++ nl)%string. repeat split; try assumption.
    simpl. apply match_plus_iff.
    exists r, nl. repeat split; try assumption.
    apply andb_true_iff. split; [|reflexivity]. now apply at_end_iff.
Qed.

End StringFacts.

(** ** Transcripts *)

Section TranscriptFacts.

Lemma lookups_app (a b : Transcript) : lookups (a ++ b) = lookups a + lookups b.
Proof. induction a as [|[] a IH]; simpl; lia. Qed.

Lemma connected_hosts_app (a b : Transcript) :
  connected_hosts (a ++ b) = connected_hosts a ++ connected_hosts b.
Proof. induction a as [|[] a IH]; simpl; congruence. Qed.

Lemma connects_app (a b : Transcript) : connects (a ++ b) = connects a + connects b.
Proof. unfold connects. now rewrite connected_hosts_app, length_app. Qed.

Lemma sleeps_app (a b : Transcript) : sleeps (a ++ b) = sleeps a ++ sleeps b.
Proof. induction a as [|[] a IH]; simpl; congruence. Qed.


End TranscriptFacts.

(** ** Running a stage: case analysis on what the network answers *)

Ltac no_oracle t :=
  lazymatch t with
  | context [net_resolve] => fail
  | context [net_connect] => fail
  | context [net_helo] => fail
  | context [net_ehlo_or_helo] => fail
  | context [net_mail] => fail
  | context [net_rcpt] => fail
  | context [net_quit] => fail
  | context [net_exit] => fail
  | _ => idtac
  end.

(** Split on the earliest call whose answer is still unknown. *)
Ltac oracle :=
  match goal with
  | |- context [net_resolve ?n ?w ?d] =>
      no_oracle w; destruct (net_resolve n w d) as [[|? ?]|[]] eqn:?
  | |- context [net_connect ?n ?w ?h] =>
      no_oracle w; destruct (net_connect n w h) eqn:?
  | |- context [net_helo ?n ?w] =>
      no_oracle w; destruct (net_helo n w) as [[? ?]|] eqn:?
  | |- context [net_ehlo_or_helo ?n ?w] =>
      no_oracle w; destruct (net_ehlo_or_helo n w) eqn:?
  | |- context [net_mail ?n ?w ?s] =>
      no_oracle w; destruct (net_mail n w s) as [[? ?]|] eqn:?
  | |- context [net_rcpt ?n ?w ?s] =>
      no_oracle w; destruct (net_rcpt n w s) as [[? ?]|] eqn:?
  | |- context [net_quit ?n ?w] =>
      no_oracle w; destruct (net_quit n w) as [[? ?]|] eqn:?
  | |- context [net_exit ?n ?w] =>
      no_oracle w; destruct (net_exit n w) eqn:?
  | |- context [if (?z =? ?c)%Z then _ else _] =>
      is_var z; destruct (z =? c)%Z eqn:?
  end.

Ltac unfold_ops :=
  unfold try_except, bind, with_SMTP, dns_resolve, index, SMTP, helo,
    ehlo_or_helo_if_needed, mail, rcpt, quit, sleep, ret, raise.

Ltac run := unfold_ops; repeat (cbn -[String.append String.eqb]; try oracle).

(** Name the result and the events added to the transcript. *)
Ltac delta :=
  do 2 eexists; split; [rewrite <- ?app_assoc; cbn [app]; reflexivity|].

(** Run a stage along the answers that the hypotheses give. *)
Ltac replay :=
  unfold_ops;
  repeat (cbn -[String.append String.eqb];
          match goal with
          | H : ?l = _ |- context [?l] => rewrite H
          end);
  cbn -[String.append String.eqb]; rewrite <- ?app_assoc; try reflexivity.

(** The answers that a transcript records, one hypothesis per call. *)
Ltac answered F :=
  unfold timeouts in F; cbn [repeat app follows answers] in F; decompose [and] F; clear F.

(** The events of the run are the session that the goal asks for. *)
Ltac session_shape :=
  lazymatch goal with
  | |- after_timeouts _ _ _ _ =>
      first
        [ solve [exists 0; eexists; refine (conj _ (conj eq_refl _));
                 [unfold Eeemail2.max_retries; lia | repeat eexists]]
        | solve [exists 1; eexists; refine (conj _ (conj eq_refl _));
                 [unfold Eeemail2.max_retries; lia | repeat eexists]]
        | solve [exists 2; eexists; refine (conj _ (conj eq_refl _));
                 [unfold Eeemail2.max_retries; lia | repeat eexists]] ]
  | |- _ => unfold with_session, quit_session, connection_session; repeat eexists
  end.

(** At the end of a run: the events are what the network answered, and a
    true result comes at the end of a session. *)
Ltac session_end :=
  delta; split;
  [ cbn [follows answers]; repeat (split; [assumption|]); exact I
  | let H := fresh "H" in
    intros H;
    first
      [ discriminate H
      | lazymatch type of H with
        | context [(?z =? _)%Z] => exists z; split; [session_shape | exact H]
        | _ => exists 0%Z; split; [session_shape | reflexivity]
        end ] ].

(** ** The catch-all check *)

Section CatchAll.

Variable net : Net.

Lemma eemail_check_catch_all (domain : string) (w : Transcript) :
  exists b t, Eemail.check_catch_all domain net w = (Val b, w ++ t) /\
    Forall (eq domain) (resolved_domains t) /\
    connected_hosts t = first_exchange (net_resolve net w domain).
Proof.
  unfold Eemail.check_catch_all.
  destruct (is_gmail_domain domain); run; delta;
    (split; [repeat constructor | reflexivity]).
Qed.

Lemma emailv12_check_catch_all (domain : string) (w : Transcript) :
  exists b t, Emailv12.check_catch_all domain net w = (Val b, w ++ t) /\
    connected_hosts t = first_exchange (net_resolve net w domain).
Proof.
  unfold Emailv12.check_catch_all.
  run; delta; reflexivity.
Qed.

Lemma eeemail2_check_catch_all_loop (domain : string) (remaining : nat) (w : Transcript) :
  exists b t, Eeemail2.check_catch_all_loop remaining domain net w = (Val b, w ++ t) /\
    connects t <= 1 /\ lookups t <= remaining /\ failures_end_run t = true /\
    (b = true -> existsb smtp_failure t = false).
Proof.
  revert w. induction remaining as [|remaining IH]; intros w.
  - exists false, []. rewrite app_nil_r. repeat split; auto with arith.
  - cbn [Eeemail2.check_catch_all_loop]. unfold try_except at 1, bind at 1, dns_resolve at 1.
    destruct (net_resolve net w domain) as [[|mx l]|e] eqn:Eres.
    3: destruct e.
    5: { destruct (IH (w ++ [Resolve domain (Exc Timeout)])) as (b & t & E & Hc & Hl & Hf & Hs).
         exists b, (Resolve domain (Exc Timeout) :: t).
         rewrite E, <- app_assoc. split; [reflexivity|].
         repeat split; try assumption.
         simpl. lia. }
    all: destruct (is_gmail_domain domain); run; delta;
      cbn; repeat split; auto with arith; try discriminate.
Qed.

(** [check_catch_all] is decided by the session with the mail exchanger. *)
Lemma eemail_catch_all_decided (domain : string) (w : Transcript) :
  decided_by net (Eemail.check_catch_all domain) w
    (quit_session domain (probe_sender domain) (probe_recipient domain))
    (probe_verdict domain).
Proof.
  unfold decided_by, probe_sender, probe_recipient, probe_verdict, Eemail.check_catch_all.
  destruct (is_gmail_domain domain) eqn:G.
  all: split; [intros code t (mx & rest & g & a & m & q & ->) F; answered F; replay|].
  all: run; session_end.
Qed.

Lemma emailv8_catch_all_decided (domain : string) (w : Transcript) :
  decided_by net (Emailv8.check_catch_all domain) w
    (with_session domain (probe_sender domain) (probe_recipient domain))
    (probe_verdict domain).
Proof.
  unfold decided_by, probe_sender, probe_recipient, probe_verdict, Emailv8.check_catch_all.
  destruct (is_gmail_domain domain) eqn:G.
  all: split; [intros code t (mx & rest & a & m & ->) F; answered F; replay|].
  all: run; session_end.
Qed.


Lemma eeemail2_catch_all_decided (domain : string) (w : Transcript) :
  decided_by net (Eeemail2.check_catch_all domain) w
    (after_timeouts domain
       (quit_session domain (probe_sender domain) (probe_recipient domain)))
    (probe_verdict domain).
Proof.
  unfold decided_by, probe_sender, probe_recipient, probe_verdict,
    Eeemail2.check_catch_all, Eeemail2.max_retries.
  cbn [Eeemail2.check_catch_all_loop].
  destruct (is_gmail_domain domain) eqn:G.
  all: split;
    [intros code t (n & t' & Hn & -> & (mx & rest & g & a & m & q & ->)) F;
     destruct n as [|[|[|n]]]; [| | |unfold Eeemail2.max_retries in Hn; lia];
     answered F; replay|].
  all: run; session_end.
Qed.


End CatchAll.

(** ** The connection check *)

Section Connection.

Variable net : Net.
Variables (email domain : string).
Hypothesis Hdomain : nth_error (PyStr.split "@" email) 1 = Some domain.

Lemma eemail_check_connection (w : Transcript) :
  exists b t, Eemail.check_connection email net w = (Val b, w ++ t) /\
    resolved_domains t = [domain] /\
    connected_hosts t = first_exchange (net_resolve net w domain).
Proof.
  unfold Eemail.check_connection, index. rewrite Hdomain.
  run; delta; split; reflexivity.
Qed.

Lemma eeemail2_check_connection (w : Transcript) :
  exists b t, Eeemail2.check_connection email net w = (Val b, w ++ t) /\
    connects t <= 1 /\ lookups t = 1 /\ failures_end_run t = true /\
    (b = true -> existsb smtp_failure t = false).
Proof.
  unfold Eeemail2.check_connection, index. rewrite Hdomain.
  run; delta; cbn; repeat split; auto with arith; discriminate.
Qed.

(** [helo()] and [quit()] return the reply of the server, which is not
    looked at: the check is True as soon as the three calls return. *)
Lemma eeemail2_connection_decided (w : Transcript) :
  decided_by net (Eeemail2.check_connection email) w
    (fun _ => connection_session domain) (fun _ => true).
Proof.
  unfold decided_by, Eeemail2.check_connection, index. rewrite Hdomain.
  split; [intros code t (mx & rest & g & q & ->) F; answered F; replay|].
  run; session_end.
Qed.

Lemma emailv8_check_connection (w : Transcript) :
  exists b t, Emailv8.check_connection email net w = (Val b, w ++ t).
Proof.
  unfold Emailv8.check_connection, index. rewrite Hdomain.
  run; do 2 eexists; rewrite <- ?app_assoc; reflexivity.
Qed.

Lemma emailv12_check_connection (w : Transcript) :
  exists b t, Emailv12.check_connection email net w = (Val b, w ++ t) /\
    resolved_domains t = [domain] /\
    connected_hosts t = first_exchange (net_resolve net w domain).
Proof.
  unfold Emailv12.check_connection, index. rewrite Hdomain.
  run; delta; split; reflexivity.
Qed.

Lemma emailv13_check_connection_body (w : Transcript) :
  exists b t, Emailv13.check_connection_body email net w = (Val b, w ++ t) /\
    connects t <= 1 /\ lookups t = 1 /\ sleeps t = [].
Proof.
  unfold Emailv13.check_connection_body, index. rewrite Hdomain.
  run; delta; cbn; repeat split; auto with arith.
Qed.

End Connection.

(** ** Accepted addresses and the split at '@' *)

Section Accepted.

Lemma accepted_split (email : string) :
  check_syntax email = true ->
  exists localPart domain,
    email = (localPart ++ "@" ++ domain)%string /\
    PyStr.split "@" email = [localPart; domain] /\
    PyStr.count "@" localPart = 0 /\ PyStr.count "@" domain = 0 /\
    PyStr.nonempty domain = true.
Proof.
  intros H. apply check_syntax_iff in H
    as (l & d & r & nl & -> & Hl & Hla & Hd & Hda & Hr & Hra & Hnl).
  assert (Cl : PyStr.count "@" l = 0) by (now apply (all_in_count local_char)).
  assert (Cd : PyStr.count "@" (d ++ "." ++ r ++ nl)%string = 0).
  { rewrite count_append. rewrite (all_in_count label_char) by easy.
    change ("." ++ r ++ nl)%string with (String "." (r ++ nl)).
    cbn [PyStr.count]. replace (Ascii.eqb "." "@") with false by reflexivity.
    rewrite count_append, (all_in_count tail_char) by easy.
    destruct Hnl as [-> | ->]; reflexivity. }
  exists l, (d ++ "." ++ r ++ nl)%string. repeat split; try assumption.
  - change ("@" ++ d ++ "." ++ r ++ nl)%string with (String "@" (d ++ "." ++ r ++ nl)).
    rewrite split_at_sep by assumption. now rewrite split_no_sep.
  - destruct d; [discriminate | reflexivity].
Qed.

Lemma accepted_domain (email : string) :
  check_syntax email = true ->
  nth_error (PyStr.split "@" email) 1 = Some (domain_part email).
Proof.
  intros H. destruct (accepted_split email H) as (l & d & _ & E & _).
  unfold domain_part. now rewrite E.
Qed.

End Accepted.

(** ** The MX lookup and the retry wrapper *)

Section Lookup.

Variable net : Net.


Lemma emailv8_check_mail_server (domain : string) (w : Transcript) :
  exists r, Emailv8.check_mail_server domain net w
            = (r, w ++ [Resolve domain (net_resolve net w domain)]).
Proof. unfold Emailv8.check_mail_server. run; eexists; reflexivity. Qed.

Lemma emailv12_check_mail_server (domain : string) (w : Transcript) :
  Emailv12.check_mail_server domain net w
  = (Val (negb (lookup_failed (net_resolve net w domain))),
     w ++ [Resolve domain (net_resolve net w domain)]).
Proof. unfold Emailv12.check_mail_server. run; reflexivity. Qed.

Lemma emailv13_check_mail_server_body (domain : string) (w : Transcript) :
  Emailv13.check_mail_server_body domain net w
  = (Val (negb (lookup_failed (net_resolve net w domain))),
     w ++ [Resolve domain (net_resolve net w domain)]).
Proof. unfold Emailv13.check_mail_server_body. run; reflexivity. Qed.

(** One turn of the [while] loop of "eeemail 2.py". *)
Lemma eeemail2_check_mail_server_turn (domain : string) (remaining : nat) (w : Transcript) :
  Eeemail2.check_mail_server_loop (S remaining) domain net w =
  let a := net_resolve net w domain in
  let w' := w ++ [Resolve domain a] in
  match a with
  | Val mx_records => (Val (0 <? List.length mx_records)%nat, w')
  | Exc NoAnswer | Exc NXDOMAIN => (Val false, w')
  | Exc Timeout => Eeemail2.check_mail_server_loop remaining domain net w'
  | Exc e => (Exc e, w')
  end.
Proof.
  cbn [Eeemail2.check_mail_server_loop]. unfold_ops.
  destruct (net_resolve net w domain) as [l|[]]; reflexivity.
Qed.

Lemma eeemail2_check_mail_server_loop (domain : string) (remaining : nat) (w : Transcript) :
  exists r t, Eeemail2.check_mail_server_loop remaining domain net w = (r, w ++ t) /\
    lookups t <= remaining /\ connects t = 0 /\ sleeps t = [].
Proof.
  revert w. induction remaining as [|remaining IH]; intros w.
  - exists (Val false), []. rewrite app_nil_r. auto.
  - rewrite eeemail2_check_mail_server_turn. cbv zeta.
    destruct (net_resolve net w domain) as [l|[]].
    4: { destruct (IH (w ++ [Resolve domain (Exc Timeout)])) as (r & t & E & Hl & Hc & Hs).
         exists r, (Resolve domain (Exc Timeout) :: t). rewrite E, <- app_assoc.
         repeat split; try assumption. simpl. lia. }
    all: do 2 eexists; split; [reflexivity|]; cbn; auto with arith.
Qed.

(** Lookups that time out use up turns of the loop and nothing else. *)
Lemma eeemail2_lookups_after_timeouts (domain : string) (n remaining : nat) (w : Transcript) :
  n <= remaining -> follows net w (timeouts domain n) ->
  Eeemail2.check_mail_server_loop remaining domain net w
  = Eeemail2.check_mail_server_loop (remaining - n) domain net (w ++ timeouts domain n).
Proof.
  unfold timeouts. revert remaining w. induction n as [|n IH]; intros remaining w Hn F.
  - rewrite Nat.sub_0_r. cbn [repeat]. now rewrite app_nil_r.
  - destruct remaining as [|remaining]; [lia|].
    cbn [repeat follows answers] in F. destruct F as (F1 & F2).
    rewrite eeemail2_check_mail_server_turn, F1. cbv zeta iota.
    rewrite (IH remaining _ ltac:(lia) F2). cbn [Nat.sub repeat].
    now rewrite <- app_assoc.
Qed.

(** What the first lookup that does not time out decides. *)
Lemma eeemail2_check_mail_server_decided (domain : string) (n : nat)
    (a : Result (list MXRecord)) (w : Transcript) :
  n < Eeemail2.max_retries -> follows net w (timeouts domain n) ->
  net_resolve net (w ++ timeouts domain n) domain = a -> a <> Exc Timeout ->
  Eeemail2.check_mail_server domain net w
  = (match a with
     | Val mx_records => Val (0 <? List.length mx_records)%nat
     | Exc NoAnswer | Exc NXDOMAIN => Val false
     | Exc e => Exc e
     end, w ++ timeouts domain n ++ [Resolve domain a]).
Proof.
  intros Hn F R Ha. unfold Eeemail2.check_mail_server.
  rewrite (eeemail2_lookups_after_timeouts domain n) by (auto with arith).
  unfold Eeemail2.max_retries in *.
  replace (3 - n) with (S (3 - n - 1)) by lia.
  rewrite eeemail2_check_mail_server_turn, R. cbv zeta. rewrite <- app_assoc.
  destruct a as [l|[]]; try reflexivity. now destruct Ha.
Qed.

Lemma eeemail2_check_mail_server_exhausted (domain : string) (w : Transcript) :
  follows net w (timeouts domain Eeemail2.max_retries) ->
  Eeemail2.check_mail_server domain net w
  = (Val false, w ++ timeouts domain Eeemail2.max_retries).
Proof.
  intros F. unfold Eeemail2.check_mail_server.
  rewrite (eeemail2_lookups_after_timeouts domain Eeemail2.max_retries) by auto.
  now rewrite Nat.sub_diag.
Qed.

(** The one lookup of eemail.py and what it decides. *)
Lemma eemail_check_mail_server_answer (domain : string) (w : Transcript) :
  Eemail.check_mail_server domain net w
  = (match net_resolve net w domain with
     | Val mx_records => Val (0 <? List.length mx_records)%nat
     | Exc NoAnswer | Exc NXDOMAIN => Val false
     | Exc e => Exc e
     end, w ++ [Resolve domain (net_resolve net w domain)]).
Proof. unfold Eemail.check_mail_server. run; reflexivity. Qed.

(** The three turns of the [for] loop of [retry_connection]. *)
Lemma retry_connection_unroll {A} (func : A -> M bool) (x : A) (w : Transcript) :
  Emailv13.retry_connection func x net w =
  match func x net w with
  | (Exc e, w1) => (Exc e, w1)
  | (Val true, w1) => (Val (Some true), w1)
  | (Val false, w1) =>
      match func x net (w1 ++ [Sleep 1]) with
      | (Exc e, w2) => (Exc e, w2)
      | (Val true, w2) => (Val (Some true), w2)
      | (Val false, w2) =>
          match func x net (w2 ++ [Sleep 2]) with
          | (Exc e, w3) => (Exc e, w3)
          | (Val r, w3) => (Val (Some r), w3)
          end
      end
  end.
Proof.
  unfold Emailv13.retry_connection. cbn [seq Emailv13.retry_loop Emailv13.retries].
  unfold bind, sleep, ret.
  destruct (func x net w) as [[[]|e] w1]; cbn; try reflexivity.
  destruct (func x net (w1 ++ [Sleep 1])) as [[[]|e] w2]; cbn; try reflexivity.
  destruct (func x net (w2 ++ [Sleep 2])) as [[[]|e] w3]; cbn; reflexivity.
Qed.

Lemma emailv13_check_mail_server (domain : string) (w : Transcript) :
  exists b t, Emailv13.check_mail_server domain net w = (Val (Some b), w ++ t).
Proof.
  unfold Emailv13.check_mail_server.
  rewrite retry_connection_unroll, emailv13_check_mail_server_body.
  destruct (lookup_failed _); cbn [negb]; cbv iota beta;
    [|do 2 eexists; reflexivity].
  rewrite emailv13_check_mail_server_body.
  destruct (lookup_failed _); cbn [negb]; cbv iota beta;
    [|do 2 eexists; rewrite <- !app_assoc; reflexivity].
  rewrite emailv13_check_mail_server_body.
  do 2 eexists; rewrite <- !app_assoc; reflexivity.
Qed.

End Lookup.

(** ** Whole runs *)

Section Runs.

Variable net : Net.

Lemma emailv13_check_connection (email : string) (w : Transcript) :
  check_syntax email = true ->
  exists b t, Emailv13.check_connection email net w = (Val (Some b), w ++ t) /\
    connects t <= 3 /\
    (b = false ->
     exists t1 t2 t3,
       t = t1 ++ Sleep 1 :: t2 ++ Sleep 2 :: t3 /\
       Emailv13.check_connection_body email net w = (Val false, w ++ t1) /\
       Emailv13.check_connection_body email net (w ++ t1 ++ [Sleep 1])
       = (Val false, (w ++ t1 ++ [Sleep 1]) ++ t2) /\
       Emailv13.check_connection_body email net (w ++ t1 ++ Sleep 1 :: t2 ++ [Sleep 2])
       = (Val false, (w ++ t1 ++ Sleep 1 :: t2 ++ [Sleep 2]) ++ t3) /\
       lookups t = 3 /\ sleeps t = [1%Z; 2%Z]).
Proof.
  intros Hsyn. pose proof (accepted_domain email Hsyn) as Hd.
  unfold Emailv13.check_connection. rewrite retry_connection_unroll.
  destruct (emailv13_check_connection_body net email _ Hd w)
    as (b1 & t1 & E1 & C1 & L1 & S1).
  rewrite E1. destruct b1.
  { exists true, t1. repeat split; [lia | discriminate]. }
  destruct (emailv13_check_connection_body net email _ Hd ((w ++ t1) ++ [Sleep 1]))
    as (b2 & t2 & E2 & C2 & L2 & S2).
  rewrite E2. destruct b2.
  { exists true, (t1 ++ Sleep 1 :: t2). rewrite <- !app_assoc. cbn [app].
    repeat split; [|discriminate].
    rewrite connects_app. change (connects (Sleep 1 :: t2)) with (connects t2). lia. }
  destruct (emailv13_check_connection_body net email _ Hd
              ((((w ++ t1) ++ [Sleep 1]) ++ t2) ++ [Sleep 2]))
    as (b3 & t3 & E3 & C3 & L3 & S3).
  rewrite E3.
  exists b3, (t1 ++ Sleep 1 :: t2 ++ Sleep 2 :: t3).
  assert (Hw1 : (w ++ t1) ++ [Sleep 1] = w ++ t1 ++ [Sleep 1])
    by now rewrite <- app_assoc.
  assert (Hw2 : (((w ++ t1) ++ [Sleep 1]) ++ t2) ++ [Sleep 2]
                = w ++ t1 ++ Sleep 1 :: t2 ++ [Sleep 2])
    by now rewrite <- !app_assoc.
  split; [|split].
  - f_equal. now rewrite <- !app_assoc.
  - rewrite connects_app. change (connects (Sleep 1 :: t2 ++ Sleep 2 :: t3))
      with (connects (t2 ++ Sleep 2 :: t3)).
    rewrite connects_app. change (connects (Sleep 2 :: t3)) with (connects t3). lia.
  - intros ->. exists t1, t2, t3. rewrite <- Hw1, <- Hw2.
    repeat split; try assumption.
    + rewrite lookups_app. change (lookups (Sleep 1 :: t2 ++ Sleep 2 :: t3))
        with (lookups (t2 ++ Sleep 2 :: t3)).
      rewrite lookups_app. change (lookups (Sleep 2 :: t3)) with (lookups t3). lia.
    + rewrite sleeps_app, S1. cbn [app sleeps].
      rewrite sleeps_app, S2. cbn [app sleeps]. now rewrite S3.
Qed.

Lemma emailv13_validate_email (email : string) (w : Transcript) :
  exists message t, Emailv13.validate_email email net w = (Val (email, message), w ++ t).
Proof.
  unfold Emailv13.validate_email.
  destruct (check_syntax email) eqn:Hsyn; cbn [negb].
  2: { exists "Invalid syntax", []. now rewrite app_nil_r. }
  unfold index. rewrite (accepted_domain email Hsyn).
  unfold bind at 1, ret at 1.
  destruct (emailv13_check_mail_server net (domain_part email) w) as (b1 & t1 & E1).
  unfold bind at 1. rewrite E1. destruct b1; cbn [negb Emailv13.truthy].
  2: { do 2 eexists. reflexivity. }
  destruct (emailv13_check_connection email (w ++ t1) Hsyn) as (b2 & t2 & E2 & _).
  unfold bind at 1. rewrite E2.
  destruct b2; cbn [negb Emailv13.truthy]; do 2 eexists;
    rewrite <- app_assoc; reflexivity.
Qed.

Lemma emailv12_validate_email (email : string) (w : Transcript) :
  exists message t, Emailv12.validate_email email net w = (Val (email, message), w ++ t).
Proof.
  unfold Emailv12.validate_email.
  destruct (check_syntax email) eqn:Hsyn; cbn [negb].
  2: { exists "Invalid syntax", []. now rewrite app_nil_r. }
  pose proof (accepted_domain email Hsyn) as Hd.
  unfold index at 1. rewrite Hd.
  unfold bind at 1, ret at 1.
  unfold bind at 1. rewrite emailv12_check_mail_server.
  destruct (lookup_failed _); cbn [negb].
  { do 2 eexists. reflexivity. }
  destruct (emailv12_check_catch_all net (domain_part email)
              (w ++ [Resolve (domain_part email) (net_resolve net w (domain_part email))]))
    as (b2 & t2 & E2 & _).
  unfold bind at 1. rewrite E2. destruct b2.
  { do 2 eexists. rewrite <- app_assoc. reflexivity. }
  destruct (emailv12_check_connection net email _ Hd
              ((w ++ [Resolve (domain_part email) (net_resolve net w (domain_part email))]) ++ t2))
    as (b3 & t3 & E3 & _).
  unfold bind at 1. rewrite E3.
  destruct b3; cbn [negb]; do 2 eexists; rewrite <- !app_assoc; reflexivity.
Qed.

End Runs.

(** ** The thread pool: every future is collected once *)

Section PoolFacts.

Lemma collect_all {A} (futures : list (Result A)) (order : list nat) (acc : list A) :
  (forall i, In i order -> exists r, nth i futures (Exc IndexError) = Val r) ->
  exists results,
    Pool.collect futures order acc = Val (acc ++ results) /\
    map Val results = map (fun i => nth i futures (Exc IndexError)) order.
Proof.
  revert acc. induction order as [|i order IH]; intros acc H.
  - exists []. simpl. now rewrite app_nil_r.
  - destruct (H i (or_introl eq_refl)) as (r & Hr).
    destruct (IH (acc ++ [r]) (fun j Hj => H j (or_intror Hj))) as (results & E & Hm).
    exists (r :: results). simpl. rewrite Hr, E, <- app_assoc. split; [reflexivity|].
    now rewrite Hm.
Qed.

Lemma map_nth_seq {A} (l : list A) (d : A) :
  map (fun i => nth i l d) (seq 0 (List.length l)) = l.
Proof.
  induction l as [|x l IH]; simpl; [reflexivity|].
  f_equal. rewrite <- seq_shift, map_map. exact IH.
Qed.

Lemma map_snd_enumerate {A} (l : list A) (start : nat) :
  map snd (combine (seq start (List.length l)) l) = l.
Proof.
  revert start. induction l as [|x l IH]; intros start; simpl; [reflexivity|].
  now rewrite IH.
Qed.

(** A batch whose task always returns an outcome for its own address. *)
Lemma run_batch_total (k : nat) (task : string -> M (string * string))
    (order : list nat) (nets : nat -> Net) (email_list : list string) :
  1 <= k -> Permutation order (seq 0 (List.length email_list)) ->
  (forall email net, exists message t, task email net [] = (Val (email, message), t)) ->
  exists results,
    Pool.run_batch k task order nets email_list = Val results /\
    List.length results = List.length email_list /\
    Permutation (map fst results) email_list /\
    Permutation (map Val results)
      (map (fun p => fst (task (snd p) (nets (fst p)) []))
           (combine (seq 0 (List.length email_list)) email_list)).
Proof.
  intros Hk Hperm Htask. unfold Pool.run_batch.
  destruct k as [|k]; [lia|]. cbn [Nat.eqb].
  set (futures := map _ (combine _ email_list)).
  assert (Hlen : List.length futures = List.length email_list).
  { unfold futures. rewrite length_map, length_combine, length_seq. lia. }
  rewrite <- Hlen in Hperm.
  assert (Hval : forall r, In r futures -> exists email message, r = Val (email, message)).
  { intros r Hr. unfold futures in Hr. apply in_map_iff in Hr as ([i email] & <- & _).
    simpl. destruct (Htask email (nets i)) as (message & t & ->). simpl. eauto. }
  destruct (collect_all futures order []) as (results & E & Hm).
  { intros i Hi. apply (Permutation_in _ Hperm) in Hi. apply in_seq in Hi.
    destruct (Hval (nth i futures (Exc IndexError))) as (email & message & ->).
    - apply nth_In. lia.
    - eauto. }
  assert (Hall : Permutation (map Val results) futures).
  { rewrite Hm. rewrite (Permutation_map _ Hperm). now rewrite map_nth_seq. }
  exists results. simpl in E. repeat split.
  - exact E.
  - apply Permutation_length in Hall. rewrite !length_map in Hall. lia.
  - pose (address := fun r : Result (string * string) =>
                       match r with Val p => fst p | Exc _ => EmptyString end).
    apply (Permutation_map address) in Hall. rewrite map_map in Hall. simpl in Hall.
    rewrite Hall. unfold futures. rewrite map_map.
    rewrite (map_ext _ snd).
    + now rewrite map_snd_enumerate.
    + intros [i email]. simpl.
      destruct (Htask email (nets i)) as (message & t & ->). reflexivity.
  - exact Hall.
Qed.

End PoolFacts.

(** ** Runs of eemail.py and "eeemail 2.py" *)

Section MoreRuns.

Variable net : Net.

Lemma bind_run {A B} (m : M A) (k : A -> M B) (w : Transcript) :
  bind m k net w =
  match m net w with
  | (Val a, w') => k a net w'
  | (Exc e, w') => (Exc e, w')
  end.
Proof. reflexivity. Qed.


Lemma eeemail2_validate_email_connects (email : string) (w : Transcript) :
  exists r t, Eeemail2.validate_email email net w = (r, w ++ t) /\ connects t <= 2.
Proof.
  unfold Eeemail2.validate_email.
  destruct (check_syntax email) eqn:Hsyn; cbn [negb].
  2: { exists (Val (false, "Invalid syntax")), []. rewrite app_nil_r.
       split; [reflexivity | auto with arith]. }
  pose proof (accepted_domain email Hsyn) as Hd.
  unfold index at 1. rewrite Hd. rewrite bind_run. unfold ret at 1.
  set (domain := domain_part email) in *.
  rewrite bind_run. unfold Eeemail2.check_mail_server.
  destruct (eeemail2_check_mail_server_loop net domain Eeemail2.max_retries w)
    as (r1 & t1 & E1 & _ & C1 & _).
  rewrite E1.
  destruct r1 as [[]|e]; cbn [negb];
    [| exists (Val (false, "No MX records found")), t1; split; [reflexivity | lia]
     | exists (Exc e), t1; split; [reflexivity | lia]].
  rewrite bind_run.
  destruct (eeemail2_check_connection net email domain Hd (w ++ t1))
    as (b2 & t2 & E2 & C2 & _).
  rewrite E2.
  destruct b2; cbn [negb].
  2: { exists (Val (false, "Cannot connect to mail server")), (t1 ++ t2).
       rewrite <- app_assoc. split; [reflexivity|]. rewrite connects_app. lia. }
  rewrite bind_run. unfold Eeemail2.check_catch_all.
  destruct (eeemail2_check_catch_all_loop net domain Eeemail2.max_retries ((w ++ t1) ++ t2))
    as (b3 & t3 & E3 & C3 & _).
  rewrite E3.
  destruct b3; eexists; exists (t1 ++ t2 ++ t3); rewrite <- !app_assoc;
    (split; [reflexivity | rewrite !connects_app; lia]).
Qed.

End MoreRuns.

(** * Runs on the example networks *)

Example valid_address_emailv8 :
  Emailv8.validate_email "good.syntax@realdomain.test" (steady_net one_mx true 550) []
  = (Val ("good.syntax@realdomain.test", "Valid"),
     [Resolve "realdomain.test" one_mx;
      Resolve "realdomain.test" one_mx; Connect "mx.example.com." true;
      EhloOrHelo true; Exit true;
      Resolve "realdomain.test" one_mx; Connect "mx.example.com." true;
      EhloOrHelo true; Mail "test@example.com" (Some (250%Z, "ok"));
      Rcpt "fake-email@realdomain.test" (Some (550%Z, "ok")); Exit true]).
Proof. vm_compute. reflexivity. Qed.

Example no_mail_server_emailv8 :
  Emailv8.validate_email "nodomain@nonexistent-tld-xyz.invalid"
    (steady_net (Exc NXDOMAIN) false 0) []
  = (Val ("nodomain@nonexistent-tld-xyz.invalid", "No MX records found"),
     [Resolve "nonexistent-tld-xyz.invalid" (Exc NXDOMAIN)]).
Proof. vm_compute. reflexivity. Qed.

Example unreachable_exchanger_emailv8 :
  fst (Emailv8.validate_email "user@example.com" (steady_net one_mx false 250) [])
  = Val ("user@example.com", "Cannot connect to mail server").
Proof. vm_compute. reflexivity. Qed.

(** eemail.py catches NoAnswer and NXDOMAIN only: a lookup that times out
    ends [validate_email] with the exception. *)
Example timeout_escapes_eemail :
  Eemail.validate_email "user@example.com" (steady_net (Exc Timeout) false 0) []
  = (Exc Timeout, [Resolve "example.com" (Exc Timeout)]).
Proof. vm_compute. reflexivity. Qed.

(** A probe that is answered with 250 and then loses the connection:
    [server.quit()] of eemail.py raises and [check_catch_all] returns False,
    while the [with] block of emailv12.py swallows the lost connection and
    [check_catch_all] returns True.  When QUIT is answered with a code other
    than 221, leaving the [with] block raises and emailv12.py returns
    False. *)
Example accepted_probe_lost_on_close :
  fst (Eemail.check_catch_all "example.com" (lost_on_close (steady_net one_mx true 250)) [])
  = Val false /\
  fst (Emailv12.check_catch_all "example.com" (lost_on_close (steady_net one_mx true 250)) [])
  = Val true /\
  fst (Emailv12.check_catch_all "example.com" (quit_refused (steady_net one_mx true 250)) [])
  = Val false.
Proof. vm_compute. auto. Qed.

(** [helo()] answered with 500 and MAIL FROM answered with 550: the replies
    are not looked at, and [check_connection] of "eeemail 2.py" is True. *)
Example rejected_greeting_is_connected :
  Eeemail2.check_connection "user@example.com" (sender_rejected (steady_net one_mx true 250)) []
  = (Val true,
     [Resolve "example.com" one_mx; Connect "mx.example.com." true;
      Helo (Some (500%Z, "unrecognised")); Quit (Some (221%Z, "bye"))]).
Proof. vm_compute. reflexivity. Qed.

(** Three addresses whose futures are yielded last first: the outcomes come
    in reverse.  The exchanger answers 550 to every RCPT, to the recipient as
    to the made-up address. *)
Example batch_in_yield_order :
  Emailv12.validate_emails [2; 1; 0]
    (fun i => if (i =? 2)%nat then steady_net (Exc NXDOMAIN) false 0
              else steady_net one_mx true 550)
    ["good.syntax@realdomain.test"; "bad syntax@@x"; "nodomain@nonexistent-tld-xyz.invalid"]
  = Val [("nodomain@nonexistent-tld-xyz.invalid", "No MX records found");
         ("bad syntax@@x", "Invalid syntax");
         ("good.syntax@realdomain.test", "Cannot connect to mail server")].
Proof. vm_compute. reflexivity. Qed.

(** * The claims *)

Section Claims.

Variable net : Net.

(** C1, as stated, fails on emailv12.py: on a network where the made-up
    recipient is accepted with 250, [check_catch_all] reports a catch-all
    domain and [validate_email] answers "Valid", where the pipeline of the
    specification, run on the same stages, answers CatchAll. *)
Lemma emailv12_catch_all_is_valid :
  let net := steady_net one_mx true 250 in
  fst (Emailv12.check_catch_all "example.com" net [Resolve "example.com" one_mx]) = Val true /\
  fst (Emailv12.validate_email "user@example.com" net []) = Val ("user@example.com", "Valid") /\
  fst (Spec.pipeline (check_syntax "user@example.com")
         (Emailv12.check_mail_server "example.com")
         (Emailv12.check_connection "user@example.com")
         (Emailv12.check_catch_all "example.com") net []) = Val Spec.CatchAll.
Proof. vm_compute. auto. Qed.

(** C1, amended.  eemail.py runs the stages in the order of the
    specification: its [validate_email] is the specification's pipeline over
    its own stages, so a run that returns answers with the status of the
    first stage that does not pass.  A run raises, and returns no status,
    exactly when the address is accepted and the MX lookup of
    [check_mail_server] raises something other than NoAnswer or NXDOMAIN, a
    timeout included; the run ends with that lookup.  emailv12.py checks the
    syntax, then the mail server, then the catch-all probe and only then the
    recipient; a catch-all domain ends the run with "Valid", before the
    recipient is probed, and no run answers with the catch-all status. *)
Theorem pipeline_stage_order (email : string) (w : Transcript) :
  let domain := domain_part email in
  (x <- Eemail.validate_email email ;;
   ret (fst x, status_of_message (snd x))) net w
  = (s <- Spec.pipeline (check_syntax email) (Eemail.check_mail_server domain)
            (Eemail.check_connection email) (Eemail.check_catch_all domain) ;;
     ret (match s with Spec.Valid => true | _ => false end, Some s)) net w
  /\
  (forall e w',
     Eemail.validate_email email net w = (Exc e, w') <->
     check_syntax email = true /\ net_resolve net w domain = Exc e /\
     e <> NoAnswer /\ e <> NXDOMAIN /\ w' = w ++ [Resolve domain (Exc e)])
  /\
  if check_syntax email then
    exists ok w1 positive w2 reached w3,
      Emailv12.check_mail_server domain net w = (Val ok, w1) /\
      Emailv12.check_catch_all domain net w1 = (Val positive, w2) /\
      Emailv12.check_connection email net w2 = (Val reached, w3) /\
      Emailv12.validate_email email net w =
        if negb ok then (Val (email, "No MX records found"), w1)
        else if positive then (Val (email, "Valid"), w2)
        else if negb reached then (Val (email, "Cannot connect to mail server"), w3)
        else (Val (email, "Valid"), w3)
  else
    Emailv12.validate_email email net w = (Val (email, "Invalid syntax"), w).
Proof.
  intros domain. refine (conj _ (conj _ _)).
  - unfold Eemail.validate_email, Spec.pipeline.
    destruct (check_syntax email) eqn:Hsyn; cbn [negb]; [|reflexivity].
    unfold index. rewrite (accepted_domain email Hsyn). fold domain.
    rewrite !bind_run. unfold ret at 1. rewrite !bind_run.
    destruct (Eemail.check_mail_server domain net w) as [[[]|e] w1]; try reflexivity.
    cbn [negb]. rewrite !bind_run.
    destruct (Eemail.check_connection email net w1) as [[[]|e] w2]; try reflexivity.
    cbn [negb]. rewrite !bind_run.
    destruct (Eemail.check_catch_all domain net w2) as [[[]|e] w3]; reflexivity.
  - intros e w'. unfold Eemail.validate_email.
    destruct (check_syntax email) eqn:Hsyn; cbn [negb].
    2: { unfold ret. split; [discriminate | intros (H & _); discriminate]. }
    pose proof (accepted_domain email Hsyn) as Hd. fold domain in Hd.
    unfold index at 1. rewrite Hd. rewrite bind_run. unfold ret at 1.
    rewrite bind_run, eemail_check_mail_server_answer.
    assert (Later : forall ok w1, exists x w2,
               (if negb ok then ret (false, "No MX records found") else
                ok <- Eemail.check_connection email ;;
                if negb ok then ret (false, "Cannot connect to mail server") else
                catch_all <- Eemail.check_catch_all domain ;;
                if catch_all then ret (false, "Domain has catch-all enabled") else
                ret (true, "Email is valid")) net w1 = (Val x, w2)).
    { intros ok w1. destruct ok; cbn [negb]; [|do 2 eexists; reflexivity].
      rewrite bind_run.
      destruct (eemail_check_connection net email domain Hd w1) as (b & t & -> & _).
      destruct b; cbn [negb]; [|do 2 eexists; reflexivity].
      rewrite bind_run.
      destruct (eemail_check_catch_all net domain (w1 ++ t)) as (c & t' & -> & _).
      destruct c; do 2 eexists; reflexivity. }
    destruct (net_resolve net w domain) as [l|e0] eqn:R.
    + destruct (Later (0 <? List.length l)%nat (w ++ [Resolve domain (Val l)]))
        as (x & w2 & ->).
      split; [discriminate | intros (_ & H & _); discriminate].
    + destruct e0.
      1, 2: destruct (Later false (w ++ [Resolve domain (Exc NoAnswer)])) as (x & w2 & E);
        cbn [negb] in *; unfold ret;
        (split; [discriminate | intros (_ & [= <-] & H1 & H2 & _); congruence]).
      all: split;
        [ intros [= <- <-]; repeat split; discriminate
        | intros (_ & [= <-] & _ & _ & ->); reflexivity ].
  - destruct (check_syntax email) eqn:Hsyn.
    2: { unfold Emailv12.validate_email. now rewrite Hsyn. }
    pose proof (accepted_domain email Hsyn) as Hd. fold domain in Hd.
    unfold Emailv12.validate_email. rewrite Hsyn. cbn [negb].
    unfold index at 1. rewrite Hd. rewrite bind_run. unfold ret at 1.
    rewrite bind_run, emailv12_check_mail_server.
    set (w1 := w ++ [Resolve domain (net_resolve net w domain)]).
    destruct (emailv12_check_catch_all net domain w1) as (positive & t2 & E2 & _).
    destruct (emailv12_check_connection net email domain Hd (w1 ++ t2))
      as (reached & t3 & E3 & _).
    exists (negb (lookup_failed (net_resolve net w domain))), w1,
      positive, (w1 ++ t2), reached, ((w1 ++ t2) ++ t3).
    repeat split; try assumption.
    destruct (negb (negb _)); [reflexivity|].
    rewrite bind_run, E2. destruct positive; [reflexivity|].
    rewrite bind_run, E3. now destruct reached.
Qed.





End Claims.

Lemma pipeline_stage_order_witness :
  Eemail.validate_email "user@example.com" (steady_net (Exc Timeout) true 250) []
  = (Exc Timeout, [] ++ [Resolve (domain_part "user@example.com") (Exc Timeout)]).
Proof.
  destruct (pipeline_stage_order (steady_net (Exc Timeout) true 250) "user@example.com" [])
    as (_ & H & _).
  apply H. repeat split; discriminate.
Defined.



(** C4, as stated, fails: the last character class of the pattern contains
    the dot, so a domain with an empty label is accepted, and [$] also
    matches before a final newline.  The specification's wording rejects
    both strings. *)
Lemma empty_label_and_final_newline_accepted :
  (check_syntax "a@b..c" = true /\ Spec.isSyntacticallyValid "a@b..c" = false) /\
  (check_syntax ("a@b.c" ++ String PyStr.newline EmptyString) = true /\
   Spec.isSyntacticallyValid ("a@b.c" ++ String PyStr.newline EmptyString) = false).
Proof. vm_compute. auto. Qed.

(** C4, amended.  [check_syntax] returns true exactly when the string is a
    local part of one or more characters of [A-Za-z0-9_.+-], one '@', a first
    label of one or more characters of [A-Za-z0-9-], a '.', and one or more
    further characters of [A-Za-z0-9.-], optionally followed by one final
    newline.  It is true for user.name+tag@sub.example.com and false for
    user@@example.com, noatsymbol.com and trailing.dot@example. *)
Theorem check_syntax_accepts (email : string) :
  (check_syntax email = true <->
   exists localPart label rest nl,
     email = (localPart ++ "@" ++ label ++ "." ++ rest ++ nl)%string /\
     PyStr.nonempty localPart = true /\ PyStr.all_in local_char localPart = true /\
     PyStr.nonempty label = true /\ PyStr.all_in label_char label = true /\
     PyStr.nonempty rest = true /\ PyStr.all_in tail_char rest = true /\
     (nl = EmptyString \/ nl = String PyStr.newline EmptyString)) /\
  check_syntax "user.name+tag@sub.example.com" = true /\
  check_syntax "user@@example.com" = false /\
  check_syntax "noatsymbol.com" = false /\
  check_syntax "trailing.dot@example." = false.
Proof.
  split; [apply check_syntax_iff|].
  vm_compute. auto.
Qed.

(** C5, as stated, fails.  In emailv13.py an authoritative negative answer is
    retried like any other failure: the domain is looked up three times, with
    sleeps of 1 and 2 seconds.  In "eeemail 2.py" three timeouts give three
    lookups with no sleep between them. *)
Lemma nxdomain_is_retried :
  Emailv13.check_mail_server "nonexistent-tld-xyz.invalid"
    (steady_net (Exc NXDOMAIN) false 0) []
  = (Val (Some false),
     [Resolve "nonexistent-tld-xyz.invalid" (Exc NXDOMAIN); Sleep 1;
      Resolve "nonexistent-tld-xyz.invalid" (Exc NXDOMAIN); Sleep 2;
      Resolve "nonexistent-tld-xyz.invalid" (Exc NXDOMAIN)]) /\
  Eeemail2.check_mail_server "example.com" (slow_net 3 one_mx true 250) []
  = (Val false,
     [Resolve "example.com" (Exc Timeout); Resolve "example.com" (Exc Timeout);
      Resolve "example.com" (Exc Timeout)]).
Proof. vm_compute. auto. Qed.

(** C5, amended.  In "eeemail 2.py", [check_mail_server] looks the domain up
    again only after a timeout, at once and without any delay, three times
    in all at most.  At every turn, the first as well as one that follows one
    or two timeouts, NoAnswer and NXDOMAIN make it return False with no
    further lookup, records make it return whether there is one, and any
    other exception is raised; after the third timeout it returns False.  In
    emailv13.py every failed lookup, an authoritative negative answer
    included, is tried again, three times in all, after sleeps of 2^attempt
    seconds (1, then 2); the third result is returned, and a lookup that
    succeeds ends the loop. *)
Theorem lookup_retry_policy (net : Net) (domain : string) (w : Transcript) :
  (forall n a,
     n < Eeemail2.max_retries -> follows net w (timeouts domain n) ->
     net_resolve net (w ++ timeouts domain n) domain = a -> a <> Exc Timeout ->
     Eeemail2.check_mail_server domain net w
     = (match a with
        | Val mx_records => Val (0 <? List.length mx_records)%nat
        | Exc NoAnswer | Exc NXDOMAIN => Val false
        | Exc e => Exc e
        end, w ++ timeouts domain n ++ [Resolve domain a])) /\
  (follows net w (timeouts domain Eeemail2.max_retries) ->
   Eeemail2.check_mail_server domain net w
   = (Val false, w ++ timeouts domain Eeemail2.max_retries)) /\
  Eeemail2.max_retries = 3 /\
  (exists r t, Eeemail2.check_mail_server domain net w = (r, w ++ t) /\
     lookups t <= 3 /\ sleeps t = []) /\
  (forall a1,
     net_resolve net w domain = a1 -> lookup_failed a1 = false ->
     Emailv13.check_mail_server domain net w = (Val (Some true), w ++ [Resolve domain a1])) /\
  (forall a1 a2,
     net_resolve net w domain = a1 -> lookup_failed a1 = true ->
     net_resolve net (w ++ [Resolve domain a1; Sleep 1]) domain = a2 ->
     lookup_failed a2 = false ->
     Emailv13.check_mail_server domain net w
     = (Val (Some true), w ++ [Resolve domain a1; Sleep 1; Resolve domain a2])) /\
  (forall a1 a2 a3,
     net_resolve net w domain = a1 -> lookup_failed a1 = true ->
     net_resolve net (w ++ [Resolve domain a1; Sleep 1]) domain = a2 ->
     lookup_failed a2 = true ->
     net_resolve net (w ++ [Resolve domain a1; Sleep 1; Resolve domain a2; Sleep 2]) domain
     = a3 ->
     Emailv13.check_mail_server domain net w
     = (Val (Some (negb (lookup_failed a3))),
        w ++ [Resolve domain a1; Sleep 1; Resolve domain a2; Sleep 2; Resolve domain a3])).
Proof.
  refine (conj _ (conj _ (conj eq_refl (conj _ (conj _ (conj _ _)))))).
  - intros n a. apply eeemail2_check_mail_server_decided.
  - apply eeemail2_check_mail_server_exhausted.
  - destruct (eeemail2_check_mail_server_loop net domain 3 w) as (r & t & E & L & _ & S).
    now exists r, t.
  - unfold Emailv13.check_mail_server.
    intros a1 H1 F1. rewrite retry_connection_unroll, emailv13_check_mail_server_body.
    now rewrite H1, F1.
  - unfold Emailv13.check_mail_server. intros a1 a2 H1 F1 H2 F2.
    rewrite retry_connection_unroll, emailv13_check_mail_server_body.
    rewrite H1, F1. cbn [negb]. cbv iota.
    rewrite emailv13_check_mail_server_body.
    rewrite <- !app_assoc. cbn [app]. now rewrite H2, F2.
  - unfold Emailv13.check_mail_server. intros a1 a2 a3 H1 F1 H2 F2 H3.
    rewrite retry_connection_unroll, emailv13_check_mail_server_body.
    rewrite H1, F1. cbn [negb]. cbv iota.
    rewrite emailv13_check_mail_server_body.
    rewrite <- !app_assoc. cbn [app]. rewrite H2, F2. cbn [negb]. cbv iota.
    rewrite emailv13_check_mail_server_body.
    rewrite <- !app_assoc. cbn [app]. now rewrite H3.
Qed.

Lemma lookup_retry_policy_witness :
  Eeemail2.check_mail_server "example.invalid" (steady_net (Exc NXDOMAIN) false 0) []
  = (Val false, [Resolve "example.invalid" (Exc NXDOMAIN)]) /\
  Eeemail2.check_mail_server "example.invalid" (slow_net 1 (Exc NXDOMAIN) false 0) []
  = (Val false,
     [Resolve "example.invalid" (Exc Timeout); Resolve "example.invalid" (Exc NXDOMAIN)]) /\
  Eeemail2.check_mail_server "example.com" (slow_net 2 one_mx true 250) []
  = (Val true,
     [Resolve "example.com" (Exc Timeout); Resolve "example.com" (Exc Timeout);
      Resolve "example.com" one_mx]) /\
  Eeemail2.check_mail_server "example.com" (slow_net 3 one_mx true 250) []
  = (Val false,
     [Resolve "example.com" (Exc Timeout); Resolve "example.com" (Exc Timeout);
      Resolve "example.com" (Exc Timeout)]) /\
  Emailv13.check_mail_server "example.com" (steady_net one_mx true 250) []
  = (Val (Some true), [Resolve "example.com" one_mx]) /\
  Emailv13.check_mail_server "example.com" (slow_net 1 one_mx true 250) []
  = (Val (Some true),
     [Resolve "example.com" (Exc Timeout); Sleep 1; Resolve "example.com" one_mx]) /\
  Emailv13.check_mail_server "example.invalid" (steady_net (Exc NXDOMAIN) false 0) []
  = (Val (Some false),
     [Resolve "example.invalid" (Exc NXDOMAIN); Sleep 1;
      Resolve "example.invalid" (Exc NXDOMAIN); Sleep 2;
      Resolve "example.invalid" (Exc NXDOMAIN)]).
Proof.
  refine (conj _ (conj _ (conj _ (conj _ (conj _ (conj _ _)))))).
  - destruct (lookup_retry_policy (steady_net (Exc NXDOMAIN) false 0) "example.invalid" [])
      as (H & _).
    apply (H 0 (Exc NXDOMAIN)); [unfold Eeemail2.max_retries; lia | exact I | reflexivity
                                | discriminate].
  - destruct (lookup_retry_policy (slow_net 1 (Exc NXDOMAIN) false 0) "example.invalid" [])
      as (H & _).
    apply (H 1 (Exc NXDOMAIN)); [unfold Eeemail2.max_retries; lia | vm_compute; auto
                                | reflexivity | discriminate].
  - destruct (lookup_retry_policy (slow_net 2 one_mx true 250) "example.com" [])
      as (H & _).
    apply (H 2 one_mx); [unfold Eeemail2.max_retries; lia | vm_compute; auto
                        | reflexivity | discriminate].
  - destruct (lookup_retry_policy (slow_net 3 one_mx true 250) "example.com" [])
      as (_ & H & _).
    apply H. vm_compute. auto.
  - destruct (lookup_retry_policy (steady_net one_mx true 250) "example.com" [])
      as (_ & _ & _ & _ & H & _).
    apply (H _ eq_refl eq_refl).
  - destruct (lookup_retry_policy (slow_net 1 one_mx true 250) "example.com" [])
      as (_ & _ & _ & _ & _ & H & _).
    apply (H _ _ eq_refl eq_refl eq_refl eq_refl).
  - destruct (lookup_retry_policy (steady_net (Exc NXDOMAIN) false 0) "example.invalid" [])
      as (_ & _ & _ & _ & _ & _ & H).
    apply (H _ _ _ eq_refl eq_refl eq_refl eq_refl eq_refl).
Defined.

(** C6, as stated, fails on emailv13.py, where [check_connection] is wrapped
    in [retry_connection]: when the mail exchanger refuses the connection,
    one run of [validate_email] connects to it three times. *)
Lemma refused_connection_is_retried :
  Emailv13.validate_email "user@example.com" (steady_net one_mx false 250) []
  = (Val ("user@example.com", "Cannot connect to mail server"),
     [Resolve "example.com" one_mx;
      Resolve "example.com" one_mx; Connect "mx.example.com." false; Sleep 1;
      Resolve "example.com" one_mx; Connect "mx.example.com." false; Sleep 2;
      Resolve "example.com" one_mx; Connect "mx.example.com." false]).
Proof. vm_compute. reflexivity. Qed.

(** C6, amended.  In emailv13.py a failed probe of the recipient is tried
    again: [check_connection] returns False only after three attempts,
    separated by sleeps of 1 and 2 seconds, and opens at most three SMTP
    sessions.  In "eeemail 2.py" no SMTP call is repeated:
    [check_connection] and [check_catch_all] open at most one SMTP session
    each, an SMTP call that raises is the last event of the check and makes
    it return False, [check_catch_all] repeats only the MX lookup, after a
    DNS timeout, and a run of [validate_email] opens at most two sessions,
    one per check.  A call that returns does not end the check, whatever the
    code of the reply: [check_connection] is True as soon as connect,
    [helo()] and [quit()] return, and [check_catch_all] looks at the code of
    the RCPT reply only. *)
Theorem smtp_retry_policy (net : Net) (email : string) (w : Transcript) :
  check_syntax email = true ->
  (exists b t, Emailv13.check_connection email net w = (Val (Some b), w ++ t) /\
     connects t <= 3 /\
     (b = false ->
      exists t1 t2 t3,
        t = t1 ++ Sleep 1 :: t2 ++ Sleep 2 :: t3 /\
        Emailv13.check_connection_body email net w = (Val false, w ++ t1) /\
        Emailv13.check_connection_body email net (w ++ t1 ++ [Sleep 1])
        = (Val false, (w ++ t1 ++ [Sleep 1]) ++ t2) /\
        Emailv13.check_connection_body email net (w ++ t1 ++ Sleep 1 :: t2 ++ [Sleep 2])
        = (Val false, (w ++ t1 ++ Sleep 1 :: t2 ++ [Sleep 2]) ++ t3) /\
        lookups t = 3 /\ sleeps t = [1%Z; 2%Z])) /\
  (exists b t, Eeemail2.check_connection email net w = (Val b, w ++ t) /\
     connects t <= 1 /\ failures_end_run t = true /\
     (existsb smtp_failure t = true -> b = false)) /\
  decided_by net (Eeemail2.check_connection email) w
    (fun _ => connection_session (domain_part email)) (fun _ => true) /\
  (forall domain,
     decided_by net (Eeemail2.check_catch_all domain) w
       (after_timeouts domain
          (quit_session domain (probe_sender domain) (probe_recipient domain)))
       (probe_verdict domain)) /\
  (forall domain,
     exists b t, Eeemail2.check_catch_all domain net w = (Val b, w ++ t) /\
       connects t <= 1 /\ lookups t <= 3 /\ failures_end_run t = true /\
       (existsb smtp_failure t = true -> b = false)) /\
  (exists r t, Eeemail2.validate_email email net w = (r, w ++ t) /\ connects t <= 2).
Proof.
  intros Hsyn. pose proof (accepted_domain email Hsyn) as Hd.
  refine (conj _ (conj _ (conj _ (conj _ (conj _ _))))).
  - apply emailv13_check_connection. exact Hsyn.
  - destruct (eeemail2_check_connection net email _ Hd w) as (b & t & E & C & _ & F & S).
    exists b, t. repeat split; try assumption.
    intros H. destruct b; [|reflexivity]. rewrite S in H by reflexivity. discriminate.
  - exact (eeemail2_connection_decided net email _ Hd w).
  - intros domain. apply eeemail2_catch_all_decided.
  - intros domain.
    destruct (eeemail2_check_catch_all_loop net domain Eeemail2.max_retries w)
      as (b & t & E & C & L & F & S).
    exists b, t. repeat split; try assumption.
    intros H. destruct b; [|reflexivity]. rewrite S in H by reflexivity. discriminate.
  - apply eeemail2_validate_email_connects.
Qed.

Lemma smtp_retry_policy_witness :
  check_syntax "user@example.com" = true /\
  exists r t,
    Eeemail2.validate_email "user@example.com" (steady_net one_mx false 250) [] = (r, [] ++ t) /\
    connects t <= 2.
Proof.
  split; [reflexivity|].
  apply (smtp_retry_policy (steady_net one_mx false 250) "user@example.com" []).
  reflexivity.
Defined.

(** C7, as stated, fails: nothing sorts the answer of the lookup.  When the
    resolver lists the record of preference 20 before the record of
    preference 10, the probes connect to the host of preference 20, which is
    not the first entry of the set sorted by preference. *)
Lemma unsorted_answer_first_record_used :
  let net := steady_net two_mx true 250 in
  connected_hosts (snd (Emailv12.check_connection "user@example.com" net []))
  = ["mx2.example.com."] /\
  connected_hosts (snd (Eemail.check_connection "user@example.com" net []))
  = ["mx2.example.com."] /\
  match two_mx with
  | Val records => map exchange (Spec.sorted_by_preference records)
  | Exc _ => []
  end = ["mx1.example.com."; "mx2.example.com."].
Proof. vm_compute. auto. Qed.

(** C7, amended.  When the lookup succeeds, the probe stages connect to the
    exchange of the first record of the answer, in the order in which the
    resolver library returned the records, and to no other host; the records
    are not sorted by preference. *)
Theorem probes_use_first_record (net : Net) (email : string) (w : Transcript) :
  check_syntax email = true ->
  let first_of answer :=
    match answer with
    | Val (mx :: _) => [exchange mx]
    | _ => []
    end in
  let domain := domain_part email in
  (exists b t, Emailv12.check_connection email net w = (Val b, w ++ t) /\
     connected_hosts t = first_of (net_resolve net w domain)) /\
  (exists b t, Eemail.check_connection email net w = (Val b, w ++ t) /\
     connected_hosts t = first_of (net_resolve net w domain)) /\
  (exists b t, Emailv12.check_catch_all domain net w = (Val b, w ++ t) /\
     connected_hosts t = first_of (net_resolve net w domain)) /\
  (exists b t, Eemail.check_catch_all domain net w = (Val b, w ++ t) /\
     connected_hosts t = first_of (net_resolve net w domain)).
Proof.
  intros Hsyn first_of domain. pose proof (accepted_domain email Hsyn) as Hd.
  refine (conj _ (conj _ (conj _ _))).
  - destruct (emailv12_check_connection net email _ Hd w) as (b & t & E & _ & H).
    now exists b, t.
  - destruct (eemail_check_connection net email _ Hd w) as (b & t & E & _ & H).
    now exists b, t.
  - destruct (emailv12_check_catch_all net domain w) as (b & t & E & H).
    now exists b, t.
  - destruct (eemail_check_catch_all net domain w) as (b & t & E & _ & H).
    now exists b, t.
Qed.

Lemma probes_use_first_record_witness :
  check_syntax "user@example.com" = true /\
  exists b t,
    Emailv12.check_connection "user@example.com" (steady_net two_mx true 250) []
    = (Val b, [] ++ t) /\
    connected_hosts t = ["mx2.example.com."].
Proof.
  split; [reflexivity|].
  apply (probes_use_first_record (steady_net two_mx true 250) "user@example.com" []).
  reflexivity.
Defined.

(** C8.  For every list of n addresses, every number of workers k >= 1,
    also k > n, and every order in which [as_completed] yields the n
    futures, the batch of emailv12.py and of emailv13.py returns n outcomes,
    one for each address of the input and each the outcome of that address's
    own run; the scripts themselves fix k at 50. *)
Theorem batch_one_outcome_per_address (k : nat) (order : list nat)
    (nets : nat -> Net) (email_list : list string) :
  1 <= k -> Permutation order (seq 0 (List.length email_list)) ->
  one_outcome_per_address Emailv12.validate_email nets email_list
    (Pool.run_batch k Emailv12.validate_email order nets email_list) /\
  one_outcome_per_address Emailv13.validate_email nets email_list
    (Pool.run_batch k Emailv13.validate_email order nets email_list) /\
  Emailv12.validate_emails = Pool.run_batch 50 Emailv12.validate_email /\
  Emailv13.validate_emails = Pool.run_batch 50 Emailv13.validate_email.
Proof.
  intros Hk Hperm. refine (conj _ (conj _ (conj eq_refl eq_refl))).
  - apply run_batch_total; [exact Hk | exact Hperm |].
    intros email net. apply (emailv12_validate_email net email []).
  - apply run_batch_total; [exact Hk | exact Hperm |].
    intros email net. apply (emailv13_validate_email net email []).
Qed.

Lemma batch_one_outcome_per_address_witness :
  1 <= 2 /\
  Permutation [2; 0; 1]
    (seq 0 (List.length ["good.syntax@realdomain.test"; "bad syntax@@x";
                         "nodomain@nonexistent-tld-xyz.invalid"])) /\
  one_outcome_per_address Emailv12.validate_email (fun _ => steady_net one_mx true 550)
    ["good.syntax@realdomain.test"; "bad syntax@@x"; "nodomain@nonexistent-tld-xyz.invalid"]
    (Pool.run_batch 2 Emailv12.validate_email [2; 0; 1]
       (fun _ => steady_net one_mx true 550)
       ["good.syntax@realdomain.test"; "bad syntax@@x"; "nodomain@nonexistent-tld-xyz.invalid"]).
Proof.
  assert (P : Permutation [2; 0; 1] [0; 1; 2]).
  { apply (perm_trans (perm_swap 0 2 [1])). apply perm_skip. apply perm_swap. }
  refine (conj _ (conj P _)); [lia|].
  apply (batch_one_outcome_per_address 2 [2; 0; 1]
           (fun _ => steady_net one_mx true 550)
           ["good.syntax@realdomain.test"; "bad syntax@@x";
            "nodomain@nonexistent-tld-xyz.invalid"]); [lia | exact P].
Defined.

(** C9.  For an address that [check_syntax] rejects, [validate_email]
    returns the "Invalid syntax" outcome and leaves the transcript as it was:
    no lookup, no connection and no other call to the network is made.  This
    holds in the five variants. *)
Theorem rejected_address_no_network (net : Net) (email : string) (w : Transcript) :
  check_syntax email = false ->
  Eemail.validate_email email net w = (Val (false, "Invalid syntax"), w) /\
  Emailv13.validate_email email net w = (Val (email, "Invalid syntax"), w) /\
  Emailv8.validate_email email net w = (Val (email, "Invalid syntax"), w) /\
  Emailv12.validate_email email net w = (Val (email, "Invalid syntax"), w) /\
  Eeemail2.validate_email email net w = (Val (false, "Invalid syntax"), w).
Proof.
  intros H.
  unfold Eemail.validate_email, Emailv13.validate_email, Emailv8.validate_email,
    Emailv12.validate_email, Eeemail2.validate_email.
  rewrite H. cbn [negb]. auto.
Qed.

Lemma rejected_address_no_network_witness :
  check_syntax "bad syntax@@x" = false /\
  Eemail.validate_email "bad syntax@@x" (steady_net one_mx true 250) []
  = (Val (false, "Invalid syntax"), []) /\
  Emailv13.validate_email "bad syntax@@x" (steady_net one_mx true 250) []
  = (Val ("bad syntax@@x", "Invalid syntax"), []) /\
  Emailv8.validate_email "bad syntax@@x" (steady_net one_mx true 250) []
  = (Val ("bad syntax@@x", "Invalid syntax"), []) /\
  Emailv12.validate_email "bad syntax@@x" (steady_net one_mx true 250) []
  = (Val ("bad syntax@@x", "Invalid syntax"), []) /\
  Eeemail2.validate_email "bad syntax@@x" (steady_net one_mx true 250) []
  = (Val (false, "Invalid syntax"), []).
Proof.
  split; [reflexivity|].
  apply (rejected_address_no_network (steady_net one_mx true 250) "bad syntax@@x" []).
  reflexivity.
Defined.



(** * Further properties of the scripts *)

(** ** Reading the addresses *)

Section Console.

Lemma string_app_assoc (a b c : string) : ((a ++ b) ++ c = a ++ b ++ c)%string.
Proof. induction a as [|x a IH]; simpl; [reflexivity | now rewrite IH]. Qed.

Lemma string_app_empty (s : string) : (s ++ EmptyString)%string = s.
Proof. induction s as [|c s IH]; simpl; [reflexivity | now rewrite IH]. Qed.

Lemma lstrip_head (s : string) (c : ascii) (s' : string) :
  PyStr.lstrip s = String c s' -> PyStr.is_space c = false.
Proof.
  induction s as [|x s IH]; simpl; [discriminate|].
  destruct (PyStr.is_space x) eqn:Hx; [exact IH|].
  intros [= <- _]. exact Hx.
Qed.

Lemma rstrip_idem (s : string) : PyStr.rstrip (PyStr.rstrip s) = PyStr.rstrip s.
Proof.
  induction s as [|c s IH]; [reflexivity|].
  cbn [PyStr.rstrip].
  destruct (PyStr.is_space c && negb (PyStr.nonempty (PyStr.rstrip s))) eqn:E;
    [reflexivity|].
  cbn [PyStr.rstrip]. rewrite IH, E. reflexivity.
Qed.

Lemma rstrip_last (s u : string) (c : ascii) :
  PyStr.rstrip s = (u ++ String c EmptyString)%string -> PyStr.is_space c = false.
Proof.
  revert u. induction s as [|x s IH]; intros u.
  - destruct u; discriminate.
  - cbn [PyStr.rstrip].
    destruct (PyStr.is_space x && negb (PyStr.nonempty (PyStr.rstrip s))) eqn:E.
    + destruct u; discriminate.
    + destruct u as [|y u]; simpl.
      * intros [= -> Hr]. rewrite Hr in E. simpl in E.
        now rewrite andb_true_r in E.
      * intros [= _ Hr]. exact (IH u Hr).
Qed.

Lemma strip_idem (s : string) : PyStr.strip (PyStr.strip s) = PyStr.strip s.
Proof.
  unfold PyStr.strip.
  assert (H : PyStr.lstrip (PyStr.rstrip (PyStr.lstrip s)) = PyStr.rstrip (PyStr.lstrip s)).
  { destruct (PyStr.lstrip s) as [|c s'] eqn:E; [reflexivity|].
    pose proof (lstrip_head s c s' E) as Hc.
    cbn [PyStr.rstrip]. rewrite Hc. cbn [andb PyStr.lstrip]. now rewrite Hc. }
  rewrite H. apply rstrip_idem.
Qed.

(** What the loop returns, from any list built so far. *)
Lemma get_user_emails_from_spec (stdin email_list : list string) :
  match get_user_emails_from stdin email_list with
  | None => existsb is_done stdin = false
  | Some l =>
      exists before line after,
        stdin = before ++ line :: after /\
        existsb is_done before = false /\ is_done line = true /\
        l = email_list ++ map PyStr.strip before
  end.
Proof.
  revert email_list. induction stdin as [|line stdin IH]; intros email_list.
  - reflexivity.
  - cbn [get_user_emails_from existsb]. fold (is_done line).
    destruct (is_done line) eqn:D.
    + exists [], line, stdin. simpl. now rewrite app_nil_r.
    + specialize (IH (email_list ++ [PyStr.strip line])).
      destruct (get_user_emails_from stdin (email_list ++ [PyStr.strip line])) as [l|].
      * destruct IH as (before & line' & after & -> & Hb & Hl & ->).
        exists (line :: before), line', after. simpl. rewrite D, <- app_assoc.
        repeat split; assumption.
      * exact IH.
Qed.

(** X1.  [get_user_emails] ends with EOFError exactly when no line of the
    input is the word done, in any letter case and with any surrounding
    white space; otherwise it returns a list. *)
Theorem input_without_done_raises (stdin : list string) :
  get_user_emails stdin = None <-> existsb is_done stdin = false.
Proof.
  unfold get_user_emails.
  pose proof (get_user_emails_from_spec stdin []) as H.
  destruct (get_user_emails_from stdin []) as [l|].
  - destruct H as (before & line & after & -> & _ & Hl & _).
    split; [discriminate|].
    rewrite existsb_app. simpl. rewrite Hl, orb_true_r. discriminate.
  - tauto.
Qed.

(** X2.  The list that [get_user_emails] returns holds the lines typed before
    the first done line, stripped, in the order typed; what follows that line
    is not read.  Every entry is free of surrounding white space and none is
    the word done. *)
Theorem entered_addresses (stdin l : list string) :
  get_user_emails stdin = Some l ->
  (exists before line after,
     stdin = before ++ line :: after /\
     existsb is_done before = false /\ is_done line = true /\
     l = map PyStr.strip before /\
     forall other, get_user_emails (before ++ line :: other) = Some l) /\
  Forall (fun email => PyStr.strip email = email /\ is_done email = false) l.
Proof.
  unfold get_user_emails. intros H.
  pose proof (get_user_emails_from_spec stdin []) as S. rewrite H in S.
  destruct S as (before & line & after & -> & Hb & Hl & ->). simpl.
  split.
  - exists before, line, after. repeat split; try assumption.
    intros other.
    pose proof (get_user_emails_from_spec (before ++ line :: other) []) as S.
    destruct (get_user_emails_from (before ++ line :: other) []) as [l'|].
    + destruct S as (before' & line' & after' & E & Hb' & Hl' & ->). simpl.
      f_equal. f_equal.
      clear H. revert before' E Hb'.
      induction before as [|x before IH]; intros before' E Hb'.
      * destruct before' as [|y before']; [reflexivity|].
        simpl in E. injection E as <- _. simpl in Hb'. now rewrite Hl in Hb'.
      * simpl in Hb. apply orb_false_iff in Hb as [Hx Hb].
        destruct before' as [|y before'].
        -- simpl in E. injection E as <- _. congruence.
        -- simpl in E. injection E as <- E. simpl in Hb'.
           apply orb_false_iff in Hb' as [_ Hb']. f_equal. now apply IH.
    + rewrite existsb_app in S. simpl in S. now rewrite Hl, orb_true_r in S.
  - clear H. induction before as [|x before IH]; simpl; constructor.
    + simpl in Hb. apply orb_false_iff in Hb as [Hx _].
      split; [apply strip_idem|]. unfold is_done in *. now rewrite strip_idem.
    + apply IH. simpl in Hb. now apply orb_false_iff in Hb as [_ Hb].
Qed.

Lemma entered_addresses_witness :
  get_user_emails ["  a@b.c "; "x@y.z"; " Done"; "never read"] = Some ["a@b.c"; "x@y.z"] /\
  Forall (fun email => PyStr.strip email = email /\ is_done email = false) ["a@b.c"; "x@y.z"].
Proof.
  split; [reflexivity|].
  apply (entered_addresses ["  a@b.c "; "x@y.z"; " Done"; "never read"] ["a@b.c"; "x@y.z"]).
  reflexivity.
Defined.

Lemma emailv13_get_user_emails_from (stdin email_list : list string) :
  Emailv13.get_user_emails_from stdin (filter PyStr.nonempty email_list)
  = option_map (filter PyStr.nonempty) (get_user_emails_from stdin email_list).
Proof.
  revert email_list. induction stdin as [|line stdin IH]; intros email_list.
  - reflexivity.
  - cbn [Emailv13.get_user_emails_from get_user_emails_from].
    destruct (String.eqb (PyStr.lower (PyStr.strip line)) "done"); [reflexivity|].
    rewrite <- IH, filter_app. cbn [filter].
    destruct (PyStr.nonempty (PyStr.strip line)); [reflexivity|].
    now rewrite app_nil_r.
Qed.

(** X3.  [get_user_emails] of emailv13.py returns what the other variants
    return without the empty entries: an empty line is dropped there and kept
    as an empty address elsewhere. *)
Theorem emailv13_drops_empty_lines (stdin : list string) :
  Emailv13.get_user_emails stdin
  = option_map (filter PyStr.nonempty) (get_user_emails stdin) /\
  (forall l, Emailv13.get_user_emails stdin = Some l -> ~ In EmptyString l) /\
  get_user_emails [EmptyString; "done"] = Some [EmptyString].
Proof.
  assert (E : Emailv13.get_user_emails stdin
              = option_map (filter PyStr.nonempty) (get_user_emails stdin)).
  { unfold Emailv13.get_user_emails, get_user_emails.
    now rewrite <- emailv13_get_user_emails_from. }
  split; [exact E|]. split; [|reflexivity].
  intros l H Hin. rewrite E in H.
  destruct (get_user_emails stdin) as [l'|]; [|discriminate].
  injection H as <-. apply filter_In in Hin as [_ Hne]. discriminate.
Qed.

(** X4.  For a line as [get_user_emails] hands it on, stripped, the final
    newline that the pattern tolerates cannot occur: [check_syntax] accepts
    the stripped line exactly when all of it is a local part, '@', a first
    label, '.' and one or more characters of [A-Za-z0-9.-]. *)
Theorem stripped_line_accepted (line : string) :
  check_syntax (PyStr.strip line) = true <->
  exists localPart label rest,
    PyStr.strip line = (localPart ++ "@" ++ label ++ "." ++ rest)%string /\
    PyStr.nonempty localPart = true /\ PyStr.all_in local_char localPart = true /\
    PyStr.nonempty label = true /\ PyStr.all_in label_char label = true /\
    PyStr.nonempty rest = true /\ PyStr.all_in tail_char rest = true.
Proof.
  rewrite check_syntax_iff. split.
  - intros (l & d & r & nl & E & Hl & Hla & Hd & Hda & Hr & Hra & [-> | ->]).
    + rewrite string_app_empty in E. exists l, d, r. auto 10.
    + exfalso.
      assert (E' : PyStr.strip line
                   = ((l ++ "@" ++ d ++ "." ++ r) ++ String PyStr.newline EmptyString)%string).
      { rewrite E. repeat (rewrite string_app_assoc; simpl). reflexivity. }
      apply rstrip_last in E'. discriminate.
  - intros (l & d & r & E & H). exists l, d, r, EmptyString.
    rewrite string_app_empty. split; [exact E|].
    destruct H as (? & ? & ? & ? & ? & ?). auto 10.
Qed.

End Console.

(** ** The sequential batch of "eeemail 2.py" *)

Section SequentialBatch.

Variable net : Net.

Lemma eeemail2_validate_email_messages (email : string) (w w' : Transcript)
    (is_valid : bool) (message : string) :
  Eeemail2.validate_email email net w = (Val (is_valid, message), w') ->
  if is_valid then message = "Email is valid" else In message failure_messages.
Proof.
  unfold Eeemail2.validate_email, failure_messages.
  destruct (check_syntax email); cbn [negb].
  2: { intros [= <- <- _]. simpl. auto. }
  rewrite bind_run.
  destruct (index (PyStr.split "@" email) 1 net w) as [[domain|e] w0]; [|discriminate].
  rewrite bind_run.
  destruct (Eeemail2.check_mail_server domain net w0) as [[[]|e] w1]; cbn [negb];
    [| intros [= <- <- _]; simpl; auto | discriminate].
  rewrite bind_run.
  destruct (Eeemail2.check_connection email net w1) as [[[]|e] w2]; cbn [negb];
    [| intros [= <- <- _]; simpl; auto | discriminate].
  rewrite bind_run.
  destruct (Eeemail2.check_catch_all domain net w2) as [[[]|e] w3];
    [intros [= <- <- _]; simpl; auto 6 | intros [= <- <- _]; reflexivity | discriminate].
Qed.

Lemma eeemail2_validate_emails_loop (email_list : list string) :
  forall (valid invalid : list string * list (string * string)) (w w' : Transcript),
    Eeemail2.validate_emails_loop email_list (fst valid) (snd valid) net w
    = (Val invalid, w') ->
    Permutation (fst invalid ++ map fst (snd invalid))
                ((fst valid ++ map fst (snd valid)) ++ email_list) /\
    (forall p, In p (snd invalid) -> In p (snd valid) \/ In (snd p) failure_messages) /\
    (forall p, In p (snd valid) -> In p (snd invalid)) /\
    (forall email, In email email_list -> check_syntax email = false ->
                   In (email, "Invalid syntax") (snd invalid)).
Proof.
  induction email_list as [|email email_list IH]; intros [v i] [v' i'] w w'; cbn [fst snd].
  - cbn [Eeemail2.validate_emails_loop]. intros [= <- <- _].
    rewrite app_nil_r. repeat split; auto. intros email [].
  - cbn [Eeemail2.validate_emails_loop]. rewrite bind_run.
    destruct (Eeemail2.validate_email email net w) as [[[b message]|e] w1] eqn:E;
      [|discriminate].
    pose proof (eeemail2_validate_email_messages email w w1 b message E) as Hm.
    cbn [fst snd]. destruct b.
    + intros H. apply (IH (v ++ [email], i) (v', i')) in H.
      cbn [fst snd] in H. destruct H as (Hp & Hf & Hk & Hs).
      repeat split; try assumption.
      * rewrite Hp. rewrite <- !app_assoc. apply Permutation_app_head. simpl.
        rewrite (Permutation_app_comm (map fst i) (email :: email_list)). simpl.
        constructor. apply Permutation_app_comm.
      * intros a [<- | Ha] Hsyn; [|now apply Hs].
        unfold Eeemail2.validate_email in E. rewrite Hsyn in E. discriminate.
    + intros H. apply (IH (v, i ++ [(email, message)]) (v', i')) in H.
      cbn [fst snd] in H. destruct H as (Hp & Hf & Hk & Hs).
      repeat split.
      * rewrite Hp, map_app. simpl. rewrite <- !app_assoc. reflexivity.
      * intros p Hin. destruct (Hf p Hin) as [Hi | Hi]; [|now right].
        apply in_app_or in Hi as [Hi | [<- | []]]; [now left | now right].
      * intros p Hin. apply Hk. apply in_or_app. now left.
      * intros a [<- | Ha] Hsyn; [|now apply Hs].
        apply Hk. apply in_or_app. right.
        unfold Eeemail2.validate_email in E. rewrite Hsyn in E.
        injection E as <- _. now left.
Qed.

(** X5.  When [validate_emails] of "eeemail 2.py" returns, every address of
    the input is in exactly one of the two lists: the addresses of the valid
    list and of the invalid list together are the input, each as often as it
    was entered.  Every entry of the invalid list carries one of the four
    failure messages, and an address that [check_syntax] rejects is there
    with "Invalid syntax". *)
Theorem sequential_batch_partition (email_list valid_emails : list string)
    (invalid_emails : list (string * string)) (w w' : Transcript) :
  Eeemail2.validate_emails email_list net w = (Val (valid_emails, invalid_emails), w') ->
  Permutation (valid_emails ++ map fst invalid_emails) email_list /\
  List.length valid_emails + List.length invalid_emails = List.length email_list /\
  Forall (fun p => In (snd p) failure_messages) invalid_emails /\
  (forall email, In email email_list -> check_syntax email = false ->
                 In (email, "Invalid syntax") invalid_emails).
Proof.
  intros H. unfold Eeemail2.validate_emails in H.
  apply (eeemail2_validate_emails_loop email_list ([], []) (valid_emails, invalid_emails))
    in H.
  cbn [fst snd app map] in H. destruct H as (Hp & Hf & _ & Hs).
  repeat split; try assumption.
  - apply Permutation_length in Hp. rewrite length_app, length_map in Hp. exact Hp.
  - apply Forall_forall. intros p Hin. destruct (Hf p Hin) as [[] | Hm]. exact Hm.
Qed.

End SequentialBatch.

Lemma sequential_batch_partition_witness :
  Eeemail2.validate_emails ["user@example.com"; "bad syntax@@x"]
    (steady_net one_mx true 550) []
  = (Val (["user@example.com"], [("bad syntax@@x", "Invalid syntax")]),
     snd (Eeemail2.validate_email "user@example.com" (steady_net one_mx true 550) [])) /\
  Permutation (["user@example.com"] ++ map fst [("bad syntax@@x", "Invalid syntax")])
    ["user@example.com"; "bad syntax@@x"].
Proof.
  split; [reflexivity|].
  apply (sequential_batch_partition (steady_net one_mx true 550)
           ["user@example.com"; "bad syntax@@x"] _ _ [] _ eq_refl).
Defined.

(** ** Writing the sheets *)

Section Sheets.

Lemma filter_partition {A} (f : A -> bool) (l : list A) :
  Permutation (filter f l ++ filter (fun x => negb (f x)) l) l.
Proof.
  induction l as [|x l IH]; simpl; [reflexivity|].
  destruct (f x); simpl.
  - now constructor.
  - rewrite <- Permutation_middle. now constructor.
Qed.

Lemma save_to_excel_shares (emails : list (string * string))
    (valid_filename invalid_filename : string) (disk : Disk) (log : Written) :
  String.eqb valid_filename invalid_filename = false ->
  (forall l sheet, disk l sheet = true) ->
  let shares log' :=
    rows_written valid_filename log' = pair_rows (filter is_valid_row emails) /\
    rows_written invalid_filename log'
    = pair_rows (filter (fun p => negb (is_valid_row p)) emails) /\
    Forall (fun p => rows (fst p) <> []) log' in
  (exists log', Emailv8.save_to_excel emails valid_filename invalid_filename disk log
                = (Val tt, log ++ log') /\ shares log') /\
  (exists log', Emailv12.save_to_excel emails valid_filename invalid_filename disk log
                = (Val tt, log ++ log') /\ shares log') /\
  (exists log', Emailv13.save_to_excel emails valid_filename invalid_filename disk log
                = (Val tt, log ++ log') /\ shares log').
Proof.
  intros Hne Hdisk shares. subst shares. cbv beta.
  assert (Hne' : String.eqb invalid_filename valid_filename = false)
    by (now rewrite String.eqb_sym).
  unfold Emailv8.save_to_excel, Emailv12.save_to_excel, Emailv13.save_to_excel, to_excel,
    is_valid_row.
  set (V := filter (fun p => String.eqb (snd p) "Valid") emails).
  set (I := filter (fun p => negb (String.eqb (snd p) "Valid")) emails).
  destruct V as [|v V]; destruct I as [|i I];
    cbn [some]; rewrite ?Hdisk; cbn [of_bool]; rewrite ?Hdisk; cbn [of_bool].
  all: refine (conj _ (conj _ _)); eexists.
  all: (split; [first [rewrite <- ?app_assoc; reflexivity
                      | f_equal; symmetry; apply app_nil_r]|]).
  all: unfold rows_written; cbn -[String.eqb];
    rewrite ?String.eqb_refl, ?Hne, ?Hne'; cbn -[String.eqb]; rewrite ?app_nil_r.
  all: repeat split; try reflexivity; repeat constructor; discriminate.
Qed.

(** X6.  On a disk that accepts every write, and with two different file
    names, [save_to_excel] of emailv8.py, emailv12.py and emailv13.py returns
    normally, the rows written to the valid file are the outcomes with status
    "Valid", the rows written to the invalid file are all the others, both in
    the order of the results, and no sheet is written for an empty list. *)
Theorem sheets_hold_their_share (emails : list (string * string))
    (valid_filename invalid_filename : string) (disk : Disk) (log : Written) :
  String.eqb valid_filename invalid_filename = false ->
  (forall l sheet, disk l sheet = true) ->
  let shares log' :=
    rows_written valid_filename log' = pair_rows (filter is_valid_row emails) /\
    rows_written invalid_filename log'
    = pair_rows (filter (fun p => negb (is_valid_row p)) emails) /\
    Forall (fun p => rows (fst p) <> []) log' in
  (exists log', Emailv8.save_to_excel emails valid_filename invalid_filename disk log
                = (Val tt, log ++ log') /\ shares log') /\
  (exists log', Emailv12.save_to_excel emails valid_filename invalid_filename disk log
                = (Val tt, log ++ log') /\ shares log') /\
  (exists log', Emailv13.save_to_excel emails valid_filename invalid_filename disk log
                = (Val tt, log ++ log') /\ shares log').
Proof. apply save_to_excel_shares. Qed.

Lemma sheets_hold_their_share_witness :
  String.eqb "valid.xlsx" "invalid.xlsx" = false /\
  exists log',
    Emailv12.save_to_excel [("a@b.c", "Valid"); ("x@y", "Invalid syntax")]
      "valid.xlsx" "invalid.xlsx" (fun _ _ => true) []
    = (Val tt, [] ++ log') /\
    rows_written "valid.xlsx" log' = [["a@b.c"; "Valid"]] /\
    rows_written "invalid.xlsx" log' = [["x@y"; "Invalid syntax"]] /\
    Forall (fun p => rows (fst p) <> []) log'.
Proof.
  split; [reflexivity|].
  apply (sheets_hold_their_share [("a@b.c", "Valid"); ("x@y", "Invalid syntax")]
           "valid.xlsx" "invalid.xlsx" (fun _ _ => true) []); reflexivity.
Defined.

(** X7.  When the disk refuses a sheet, nothing is written after it: the
    invalid sheet is not attempted once the valid sheet has failed.
    [save_to_excel] of emailv8.py and emailv12.py still returns normally,
    while that of emailv13.py raises exactly when a write was refused. *)
Theorem refused_sheet_ends_saving (emails : list (string * string))
    (valid_filename invalid_filename : string) (disk : Disk) (log : Written) :
  let refusal_last (log' : Written) :=
    forall sheet rest, log' = (sheet, false) :: rest -> rest = [] in
  (exists log', Emailv8.save_to_excel emails valid_filename invalid_filename disk log
                = (Val tt, log ++ log') /\ refusal_last log' /\ List.length log' <= 2) /\
  (exists log', Emailv12.save_to_excel emails valid_filename invalid_filename disk log
                = (Val tt, log ++ log') /\ refusal_last log' /\ List.length log' <= 2) /\
  (exists r log', Emailv13.save_to_excel emails valid_filename invalid_filename disk log
                  = (r, log ++ log') /\ refusal_last log' /\ List.length log' <= 2 /\
                  (r = Val tt <-> forallb snd log' = true)).
Proof.
  intros refusal_last. subst refusal_last. cbv beta.
  unfold Emailv8.save_to_excel, Emailv12.save_to_excel, Emailv13.save_to_excel, to_excel.
  set (V := filter (fun p => String.eqb (snd p) "Valid") emails).
  set (I := filter (fun p => negb (String.eqb (snd p) "Valid")) emails).
  destruct V as [|v V]; destruct I as [|i I]; cbn [some].
  all: refine (conj _ (conj _ _)).
  all: repeat (match goal with
               | |- context [of_bool ?b] => destruct b eqn:?
               end; cbn [of_bool]).
  all: lazymatch goal with
       | |- @ex (Result unit) _ =>
           do 2 eexists;
           (split; [first [rewrite <- ?app_assoc; reflexivity
                          | f_equal; symmetry; apply app_nil_r]|]);
           (split; [|split; [cbn; auto with arith | cbn; split; congruence]])
       | |- _ =>
           eexists;
           (split; [first [rewrite <- ?app_assoc; reflexivity
                          | f_equal; symmetry; apply app_nil_r]|]);
           (split; [|cbn; auto with arith])
       end.
  all: intros sheet rest H; cbn [app] in H; congruence.
Qed.

End Sheets.

(** ** Whole runs, stage by stage on every answer of the network *)

(** As [run], also splitting on the gmail test [G] and on a reply code. *)
Ltac whole_run G :=
  unfold_ops;
  repeat (cbn -[String.append String.eqb]; rewrite ?G;
          try first [oracle
                    | match goal with
                      | |- context [(?z =? ?c)%Z] => is_var z; destruct (z =? c)%Z eqn:?
                      end]).

(** Closes the facts of a run with two sessions at most and no probe of the
    address itself. *)
Ltac plain_facts :=
  cbn -[String.append String.eqb In];
  refine (conj _ (conj _ (conj _ (conj _ _))));
  [ repeat (apply Forall_cons || apply Forall_nil); auto
  | reflexivity
  | auto with arith
  | intros H; first [discriminate H | reflexivity]
  | intros e H;
    first [discriminate H
          | injection H as <-; cbn;
            refine (conj _ (conj _ _));
            [intuition discriminate | reflexivity | reflexivity]] ].

Section PlainRuns.

Variable net : Net.
Variables (email : string) (w : Transcript).
Hypothesis Hsyn : check_syntax email = true.

Lemma eemail_run_facts :
  exists r t, Eemail.validate_email email net w = (r, w ++ t) /\
    Forall (fun recipient => recipient = "fake-email@gmail.com"
                             \/ recipient = ("fake-email@" ++ domain_part email)%string)
           (rcpt_recipients t) /\
    sleeps t = [] /\ connects t <= 2 /\
    (message_of r = Some "No MX records found" -> connects t = 0) /\
    (forall e, r = Exc e ->
       ~ In e [NoAnswer; NXDOMAIN] /\ connects t = 0 /\ lookups t = List.length t).
Proof.
  pose proof (accepted_domain email Hsyn) as Hd.
  unfold Eemail.validate_email, Eemail.check_mail_server, Eemail.check_connection,
    Eemail.check_catch_all, index.
  rewrite Hsyn, Hd. cbn [negb].
  destruct (is_gmail_domain (domain_part email)) eqn:G.
  all: whole_run G.
  all: delta.
  all: plain_facts.
Qed.

Lemma emailv8_run_facts :
  exists r t, Emailv8.validate_email email net w = (r, w ++ t) /\
    Forall (fun recipient => recipient = "fake-email@gmail.com"
                             \/ recipient = ("fake-email@" ++ domain_part email)%string)
           (rcpt_recipients t) /\
    sleeps t = [] /\ connects t <= 2 /\
    (message_of r = Some "No MX records found" -> connects t = 0) /\
    (forall e, r = Exc e ->
       ~ In e [NoAnswer; NXDOMAIN; Timeout] /\ connects t = 0 /\ lookups t = List.length t).
Proof.
  pose proof (accepted_domain email Hsyn) as Hd.
  unfold Emailv8.validate_email, Emailv8.check_mail_server, Emailv8.check_connection,
    Emailv8.check_catch_all, index.
  rewrite Hsyn, Hd. cbn [negb].
  destruct (is_gmail_domain (domain_part email)) eqn:G.
  all: whole_run G.
  all: delta.
  all: plain_facts.
Qed.

Lemma eeemail2_run_facts :
  exists r t, Eeemail2.validate_email email net w = (r, w ++ t) /\
    Forall (fun recipient => recipient = "fake-email@gmail.com"
                             \/ recipient = ("fake-email@" ++ domain_part email)%string)
           (rcpt_recipients t) /\
    sleeps t = [] /\ connects t <= 2 /\
    (message_of r = Some "No MX records found" -> connects t = 0) /\
    (forall e, r = Exc e ->
       ~ In e [NoAnswer; NXDOMAIN; Timeout] /\ connects t = 0 /\ lookups t = List.length t).
Proof.
  pose proof (accepted_domain email Hsyn) as Hd.
  unfold Eeemail2.validate_email, Eeemail2.check_mail_server, Eeemail2.check_connection,
    Eeemail2.check_catch_all, Eeemail2.max_retries, index.
  rewrite Hsyn, Hd. cbn [negb Eeemail2.check_mail_server_loop Eeemail2.check_catch_all_loop].
  destruct (is_gmail_domain (domain_part email)) eqn:G.
  all: whole_run G.
  all: delta.
  all: plain_facts.
Qed.

End PlainRuns.

Ltac accepted_probe :=
  unfold probe_code; cbn -[String.append String.eqb];
  rewrite String.eqb_refl; cbn -[String.append String.eqb];
  f_equal; apply Z.eqb_eq; assumption.

Section Emailv12Run.

Variable net : Net.
Variables (email : string) (w : Transcript).
Hypothesis Hsyn : check_syntax email = true.

Lemma emailv12_run_facts :
  exists message t,
    Emailv12.validate_email email net w = (Val (email, message), w ++ t) /\
    In message ["No MX records found"; "Cannot connect to mail server"; "Valid"] /\
    Forall (fun recipient => recipient = ("nonexistent@" ++ domain_part email)%string
                             \/ recipient = email)
           (rcpt_recipients t) /\
    sleeps t = [] /\ lookups t <= 3 /\ connects t <= 2 /\
    (message = "No MX records found" -> connects t = 0) /\
    (message = "Valid" ->
     probe_code ("nonexistent@" ++ domain_part email) t = Some 250%Z
     \/ probe_code email t = Some 250%Z).
Proof.
  pose proof (accepted_domain email Hsyn) as Hd.
  unfold Emailv12.validate_email, Emailv12.check_mail_server, Emailv12.check_connection,
    Emailv12.check_catch_all, index.
  rewrite Hsyn, Hd. cbn [negb].
  whole_run Hsyn.
  all: delta.
  all: refine (conj _ (conj _ (conj _ (conj _ (conj _ (conj _ _)))))).
  all: try solve [cbn; auto with arith].
  all: try solve [cbn -[String.append]; repeat (apply Forall_cons || apply Forall_nil); auto].
  all: try solve [intros H; first [discriminate H | reflexivity]].
  all: try solve [intros H; first [discriminate H | left; accepted_probe | right; accepted_probe]].
Qed.

End Emailv12Run.

Section Emailv13Run.

Variable net : Net.

Lemma slept_app (a b : Transcript) : slept (a ++ b) = (slept a + slept b)%Z.
Proof.
  unfold slept. rewrite sleeps_app.
  induction (sleeps a) as [|x l IH]; simpl; [reflexivity|]. rewrite IH. lia.
Qed.

Lemma rcpt_recipients_app (a b : Transcript) :
  rcpt_recipients (a ++ b) = rcpt_recipients a ++ rcpt_recipients b.
Proof. induction a as [|[] a IH]; simpl; congruence. Qed.

Lemma probe_code_of_end (recipient : string) (pre : Transcript) (c : Z) (m : string) :
  probe_code recipient (pre ++ [Rcpt recipient (Some (c, m)); Exit true]) = Some c.
Proof.
  unfold probe_code. rewrite rev_app_distr. cbn -[String.eqb].
  now rewrite String.eqb_refl.
Qed.

Lemma emailv13_attempt (email : string) (w : Transcript) :
  check_syntax email = true ->
  exists b t, Emailv13.check_connection_body email net w = (Val b, w ++ t) /\
    attempt_facts email b t.
Proof.
  intros Hsyn. pose proof (accepted_domain email Hsyn) as Hd.
  unfold Emailv13.check_connection_body, index, attempt_facts. rewrite Hd.
  whole_run Hsyn.
  all: delta.
  all: refine (conj _ (conj _ (conj _ (conj _ _)))).
  all: try solve [cbn; auto with arith].
  all: try solve [cbn; repeat (apply Forall_cons || apply Forall_nil); auto].
  all: intros H; try discriminate H.
  all: refine (ex_intro _ [_; _; _; _] (ex_intro _ _ (ex_intro _ _ (conj eq_refl _)))).
  all: first [left; apply Z.eqb_eq; assumption | right; apply Z.eqb_eq; assumption].
Qed.

(** The attempts that [retry_connection] makes, when every attempt returns. *)
Lemma retry_connection_pieces {A} (func : A -> M bool) (x : A)
    (Q : bool -> Transcript -> Prop) :
  (forall w, exists b t, func x net w = (Val b, w ++ t) /\ Q b t) ->
  forall w, exists b t,
    Emailv13.retry_connection func x net w = (Val (Some b), w ++ t) /\
    ((b = true /\ Q true t) \/
     (b = true /\ exists t1 t2, t = t1 ++ Sleep 1 :: t2 /\ Q false t1 /\ Q true t2) \/
     (exists t1 t2 t3,
        t = t1 ++ Sleep 1 :: t2 ++ Sleep 2 :: t3 /\ Q false t1 /\ Q false t2 /\ Q b t3)).
Proof.
  intros Hf w. rewrite retry_connection_unroll.
  destruct (Hf w) as (b1 & t1 & E1 & Q1). rewrite E1. destruct b1.
  { exists true, t1. split; [reflexivity|]. left. now split. }
  destruct (Hf ((w ++ t1) ++ [Sleep 1])) as (b2 & t2 & E2 & Q2). rewrite E2. destruct b2.
  { exists true, (t1 ++ Sleep 1 :: t2). rewrite <- !app_assoc. split; [reflexivity|].
    right. left. split; [reflexivity|]. now exists t1, t2. }
  destruct (Hf ((((w ++ t1) ++ [Sleep 1]) ++ t2) ++ [Sleep 2])) as (b3 & t3 & E3 & Q3).
  rewrite E3. exists b3, (t1 ++ Sleep 1 :: t2 ++ Sleep 2 :: t3).
  split; [f_equal; now rewrite <- !app_assoc|].
  right. right. now exists t1, t2, t3.
Qed.

Lemma emailv13_check_mail_server_facts (domain : string) (w : Transcript) :
  exists b t, Emailv13.check_mail_server domain net w = (Val (Some b), w ++ t) /\
    connects t = 0 /\ rcpt_recipients t = [] /\ lookups t <= 3 /\
    (0 <= slept t <= 3)%Z /\
    (b = false -> lookups t = 3 /\ slept t = 3%Z).
Proof.
  destruct (retry_connection_pieces Emailv13.check_mail_server_body domain
              (fun _ t => lookups t = 1 /\ connects t = 0 /\ rcpt_recipients t = []
                          /\ slept t = 0%Z)) with (w := w)
    as (b & t & E & H).
  { intros w0. rewrite emailv13_check_mail_server_body. do 2 eexists.
    split; [reflexivity|]. cbn. auto. }
  exists b, t. split; [exact E|].
  destruct H as [(-> & L & C & R & S) | [(-> & t1 & t2 & -> & (L1 & C1 & R1 & S1) & (L2 & C2 & R2 & S2))
                | (t1 & t2 & t3 & -> & (L1 & C1 & R1 & S1) & (L2 & C2 & R2 & S2) & (L3 & C3 & R3 & S3))]].
  - repeat split; try assumption; try lia; discriminate.
  - rewrite connects_app, rcpt_recipients_app, lookups_app, slept_app.
    change (connects (Sleep 1 :: t2)) with (connects t2).
    change (rcpt_recipients (Sleep 1 :: t2)) with (rcpt_recipients t2).
    change (lookups (Sleep 1 :: t2)) with (lookups t2).
    change (slept (Sleep 1 :: t2)) with (1 + slept t2)%Z.
    rewrite C1, C2, R1, R2, L1, L2, S1, S2.
    repeat split; try reflexivity; try lia; discriminate.
  - rewrite connects_app, rcpt_recipients_app, lookups_app, slept_app.
    change (connects (Sleep 1 :: t2 ++ Sleep 2 :: t3)) with (connects (t2 ++ Sleep 2 :: t3)).
    change (rcpt_recipients (Sleep 1 :: t2 ++ Sleep 2 :: t3))
      with (rcpt_recipients (t2 ++ Sleep 2 :: t3)).
    change (lookups (Sleep 1 :: t2 ++ Sleep 2 :: t3)) with (lookups (t2 ++ Sleep 2 :: t3)).
    change (slept (Sleep 1 :: t2 ++ Sleep 2 :: t3)) with (1 + slept (t2 ++ Sleep 2 :: t3))%Z.
    rewrite connects_app, rcpt_recipients_app, lookups_app, slept_app.
    change (connects (Sleep 2 :: t3)) with (connects t3).
    change (rcpt_recipients (Sleep 2 :: t3)) with (rcpt_recipients t3).
    change (lookups (Sleep 2 :: t3)) with (lookups t3).
    change (slept (Sleep 2 :: t3)) with (2 + slept t3)%Z.
    rewrite C1, C2, C3, R1, R2, R3, L1, L2, L3, S1, S2, S3.
    repeat split; try reflexivity; lia.
Qed.

End Emailv13Run.

Section Emailv13Whole.

Variable net : Net.
Variables (email : string).
Hypothesis Hsyn : check_syntax email = true.

Lemma emailv13_check_connection_facts (w : Transcript) :
  exists b t, Emailv13.check_connection email net w = (Val (Some b), w ++ t) /\
    lookups t <= 3 /\ connects t <= 3 /\ (0 <= slept t <= 3)%Z /\
    Forall (eq email) (rcpt_recipients t) /\
    (b = true ->
     exists pre c m, t = pre ++ [Rcpt email (Some (c, m)); Exit true]
                     /\ (c = 250 \/ c = 251)%Z) /\
    (b = false -> lookups t = 3 /\ slept t = 3%Z).
Proof.
  destruct (retry_connection_pieces net Emailv13.check_connection_body email
              (attempt_facts email)) with (w := w) as (b & t & E & H).
  { intros w0. now apply emailv13_attempt. }
  exists b, t. split; [exact E|]. unfold attempt_facts in H.
  destruct H as [(-> & L & C & S & R & P)
                | [(-> & t1 & t2 & -> & (L1 & C1 & S1 & R1 & _) & (L2 & C2 & S2 & R2 & P2))
                  | (t1 & t2 & t3 & -> & (L1 & C1 & S1 & R1 & _) & (L2 & C2 & S2 & R2 & _)
                     & (L3 & C3 & S3 & R3 & P3))]].
  - unfold slept. rewrite S. cbn.
    repeat split; try assumption; try lia; try discriminate; try (now apply P).
  - rewrite connects_app, rcpt_recipients_app, lookups_app, slept_app.
    change (connects (Sleep 1 :: t2)) with (connects t2).
    change (rcpt_recipients (Sleep 1 :: t2)) with (rcpt_recipients t2).
    change (lookups (Sleep 1 :: t2)) with (lookups t2).
    change (slept (Sleep 1 :: t2)) with (1 + slept t2)%Z.
    unfold slept. rewrite S1, S2. cbn [fold_right].
    refine (conj _ (conj _ (conj _ (conj _ (conj _ _))))); try lia.
    + apply Forall_app. now split.
    + intros _. destruct (P2 eq_refl) as (pre & c & m & -> & Hc).
      exists (t1 ++ Sleep 1 :: pre), c, m. rewrite <- app_assoc. now split.
  - rewrite connects_app, rcpt_recipients_app, lookups_app, slept_app.
    change (connects (Sleep 1 :: t2 ++ Sleep 2 :: t3)) with (connects (t2 ++ Sleep 2 :: t3)).
    change (rcpt_recipients (Sleep 1 :: t2 ++ Sleep 2 :: t3))
      with (rcpt_recipients (t2 ++ Sleep 2 :: t3)).
    change (lookups (Sleep 1 :: t2 ++ Sleep 2 :: t3)) with (lookups (t2 ++ Sleep 2 :: t3)).
    change (slept (Sleep 1 :: t2 ++ Sleep 2 :: t3)) with (1 + slept (t2 ++ Sleep 2 :: t3))%Z.
    rewrite connects_app, rcpt_recipients_app, lookups_app, slept_app.
    change (connects (Sleep 2 :: t3)) with (connects t3).
    change (rcpt_recipients (Sleep 2 :: t3)) with (rcpt_recipients t3).
    change (lookups (Sleep 2 :: t3)) with (lookups t3).
    change (slept (Sleep 2 :: t3)) with (2 + slept t3)%Z.
    unfold slept. rewrite S1, S2, S3. cbn [fold_right].
    refine (conj _ (conj _ (conj _ (conj _ (conj _ _))))); try lia.
    + apply Forall_app. split; [assumption|]. apply Forall_app. now split.
    + intros Hb. destruct (P3 Hb) as (pre & c & m & -> & Hc).
      exists (t1 ++ Sleep 1 :: t2 ++ Sleep 2 :: pre), c, m.
      rewrite <- !app_assoc. cbn [app]. rewrite <- !app_assoc. now split.
Qed.

Lemma emailv13_run_facts (w : Transcript) :
  exists message t,
    Emailv13.validate_email email net w = (Val (email, message), w ++ t) /\
    In message ["No MX records found"; "Cannot connect to mail server"; "Valid"] /\
    Forall (eq email) (rcpt_recipients t) /\
    lookups t <= 6 /\ connects t <= 3 /\ (0 <= slept t <= 6)%Z /\
    (message = "No MX records found" ->
     connects t = 0 /\ lookups t = 3 /\ slept t = 3%Z) /\
    (message = "Cannot connect to mail server" -> (3 <= slept t)%Z) /\
    (message = "Valid" ->
     exists c, probe_code email t = Some c /\ (c = 250 \/ c = 251)%Z).
Proof.
  unfold Emailv13.validate_email. rewrite Hsyn. cbn [negb].
  unfold index. rewrite (accepted_domain email Hsyn).
  rewrite bind_run. unfold ret at 1. rewrite bind_run.
  destruct (emailv13_check_mail_server_facts net (domain_part email) w)
    as (b1 & t1 & E1 & C1 & R1 & L1 & S1 & F1).
  rewrite E1. destruct b1; cbn [negb Emailv13.truthy].
  2: { exists "No MX records found", t1. split; [reflexivity|].
       destruct (F1 eq_refl) as (L & S). rewrite R1.
       repeat split; simpl; auto; try lia; try discriminate. }
  rewrite bind_run.
  destruct (emailv13_check_connection_facts (w ++ t1))
    as (b2 & t2 & E2 & L2 & C2 & S2 & R2 & P2 & F2).
  rewrite E2.
  assert (HR : Forall (eq email) (rcpt_recipients (t1 ++ t2)))
    by (rewrite rcpt_recipients_app, R1; exact R2).
  destruct b2; cbn [negb Emailv13.truthy].
  - exists "Valid", (t1 ++ t2). rewrite <- app_assoc. split; [reflexivity|].
    rewrite lookups_app, connects_app, slept_app.
    repeat split; simpl; auto; try lia; try discriminate.
    intros _. destruct (P2 eq_refl) as (pre & c & m & -> & Hc).
    exists c. split; [|exact Hc]. rewrite app_assoc. apply probe_code_of_end.
  - exists "Cannot connect to mail server", (t1 ++ t2). rewrite <- app_assoc.
    split; [reflexivity|].
    destruct (F2 eq_refl) as (L & S).
    rewrite lookups_app, connects_app, slept_app.
    repeat split; simpl; auto; try lia; discriminate.
Qed.

End Emailv13Whole.

Section Uncaught.

Variable net : Net.
Variables (email : string) (w : Transcript).
Hypothesis Hsyn : check_syntax email = true.

Lemma eemail_raises (e : Exn) :
  net_resolve net w (domain_part email) = Exc e -> ~ In e [NoAnswer; NXDOMAIN] ->
  Eemail.validate_email email net w = (Exc e, w ++ [Resolve (domain_part email) (Exc e)]).
Proof.
  intros H1 H2. pose proof (accepted_domain email Hsyn) as Hd.
  unfold Eemail.validate_email, Eemail.check_mail_server, index.
  rewrite Hsyn, Hd. unfold_ops. cbn -[String.append String.eqb]. rewrite H1.
  destruct e; cbn; try reflexivity; exfalso; apply H2; cbn; auto.
Qed.

Lemma eemail_returns :
  (forall e, net_resolve net w (domain_part email) = Exc e -> In e [NoAnswer; NXDOMAIN]) ->
  exists is_valid message t,
    Eemail.validate_email email net w = (Val (is_valid, message), w ++ t).
Proof.
  pose proof (accepted_domain email Hsyn) as Hd.
  unfold Eemail.validate_email, Eemail.check_mail_server, Eemail.check_connection,
    Eemail.check_catch_all, index.
  rewrite Hsyn, Hd. cbn [negb].
  destruct (is_gmail_domain (domain_part email)) eqn:G.
  all: whole_run G.
  all: intros H.
  all: try (specialize (H _ eq_refl); cbn in H; exfalso; intuition discriminate).
  all: do 3 eexists; rewrite <- ?app_assoc; cbn [app]; reflexivity.
Qed.

Lemma emailv8_raises (e : Exn) :
  net_resolve net w (domain_part email) = Exc e -> ~ In e [NoAnswer; NXDOMAIN; Timeout] ->
  Emailv8.validate_email email net w = (Exc e, w ++ [Resolve (domain_part email) (Exc e)]).
Proof.
  intros H1 H2. pose proof (accepted_domain email Hsyn) as Hd.
  unfold Emailv8.validate_email, Emailv8.check_mail_server, index.
  rewrite Hsyn, Hd. unfold_ops. cbn -[String.append String.eqb]. rewrite H1.
  destruct e; cbn; try reflexivity; exfalso; apply H2; cbn; auto.
Qed.

Lemma emailv8_returns :
  (forall e, net_resolve net w (domain_part email) = Exc e ->
             In e [NoAnswer; NXDOMAIN; Timeout]) ->
  exists message t,
    Emailv8.validate_email email net w = (Val (email, message), w ++ t).
Proof.
  pose proof (accepted_domain email Hsyn) as Hd.
  unfold Emailv8.validate_email, Emailv8.check_mail_server, Emailv8.check_connection,
    Emailv8.check_catch_all, index.
  rewrite Hsyn, Hd. cbn [negb].
  destruct (is_gmail_domain (domain_part email)) eqn:G.
  all: whole_run G.
  all: intros H.
  all: try (specialize (H _ eq_refl); cbn in H; exfalso; intuition discriminate).
  all: do 2 eexists; rewrite <- ?app_assoc; cbn [app]; reflexivity.
Qed.

End Uncaught.

Section Batches.

Lemma nth_error_enumerate {A} (l : list A) (start i : nat) (x : A) :
  nth_error l i = Some x ->
  nth_error (combine (seq start (List.length l)) l) i = Some (start + i, x).
Proof.
  revert start i. induction l as [|y l IH]; intros start i H.
  - destruct i; discriminate.
  - destruct i as [|i]; simpl in *.
    + injection H as ->. now rewrite Nat.add_0_r.
    + rewrite (IH (S start) i H). f_equal. f_equal. lia.
Qed.

Lemma in_enumerate {A} (l : list A) (start i : nat) (x : A) :
  In (i, x) (combine (seq start (List.length l)) l) ->
  start <= i /\ nth_error l (i - start) = Some x.
Proof.
  revert start. induction l as [|y l IH]; intros start H; simpl in H; [contradiction|].
  destruct H as [[= <- <-] | H].
  - rewrite Nat.sub_diag. auto.
  - apply IH in H as [Hle Hn]. split; [lia|].
    replace (i - start) with (S (i - S start)) by lia. exact Hn.
Qed.

Lemma collect_raises {A} (futures : list (Result A)) (order : list nat) (i : nat) (e : Exn) :
  In i order -> nth i futures (Exc IndexError) = Exc e ->
  forall acc, exists e', Pool.collect futures order acc = Exc e'.
Proof.
  intros Hin Hi. induction order as [|j order IH]; intros acc; [contradiction|].
  simpl. destruct (nth j futures (Exc IndexError)) as [r|e0] eqn:Ej.
  - destruct Hin as [-> | Hin]; [congruence|]. now apply IH.
  - now exists e0.
Qed.

(** A task that raises makes the batch raise. *)
Lemma run_batch_raises {A} (k : nat) (task : string -> M A) (order : list nat)
    (nets : nat -> Net) (email_list : list string) (i : nat) (email : string) (e : Exn) :
  Permutation order (seq 0 (List.length email_list)) ->
  nth_error email_list i = Some email ->
  fst (task email (nets i) []) = Exc e ->
  exists e', Pool.run_batch k task order nets email_list = Exc e'.
Proof.
  intros Hperm Hi He. unfold Pool.run_batch.
  destruct (k =? 0)%nat; [now exists OtherException|].
  set (futures := map _ (combine _ email_list)).
  assert (Hlt : i < List.length email_list).
  { apply nth_error_Some. congruence. }
  apply (collect_raises futures _ i e).
  - apply (Permutation_in i (Permutation_sym Hperm)).
    apply in_seq. lia.
  - apply nth_error_nth. unfold futures.
    rewrite (map_nth_error _ _ _ (nth_error_enumerate email_list 0 i email Hi)).
    simpl. now rewrite He.
Qed.

(** A batch none of whose tasks raises. *)
Lemma run_batch_returns (k : nat) (task : string -> M (string * string))
    (order : list nat) (nets : nat -> Net) (email_list : list string) :
  1 <= k -> Permutation order (seq 0 (List.length email_list)) ->
  (forall i email, nth_error email_list i = Some email ->
     exists message t, task email (nets i) [] = (Val (email, message), t)) ->
  one_outcome_per_address task nets email_list
    (Pool.run_batch k task order nets email_list).
Proof.
  intros Hk Hperm Htask. unfold one_outcome_per_address, Pool.run_batch.
  destruct k as [|k]; [lia|]. cbn [Nat.eqb].
  set (futures := map _ (combine _ email_list)).
  assert (Hlen : List.length futures = List.length email_list).
  { unfold futures. rewrite length_map, length_combine, length_seq. lia. }
  rewrite <- Hlen in Hperm.
  assert (Hpair : forall i email, In (i, email) (combine (seq 0 (List.length email_list)) email_list) ->
            exists message t, task email (nets i) [] = (Val (email, message), t)).
  { intros i email Hin. apply in_enumerate in Hin as [_ Hn].
    rewrite Nat.sub_0_r in Hn. now apply Htask. }
  assert (Hval : forall r, In r futures -> exists email message, r = Val (email, message)).
  { intros r Hr. unfold futures in Hr. apply in_map_iff in Hr as ([i email] & <- & Hin).
    simpl. destruct (Hpair i email Hin) as (message & t & ->). simpl. eauto. }
  destruct (collect_all futures order []) as (results & E & Hm).
  { intros i Hi. apply (Permutation_in _ Hperm) in Hi. apply in_seq in Hi.
    destruct (Hval (nth i futures (Exc IndexError))) as (email & message & ->).
    - apply nth_In. lia.
    - eauto. }
  assert (Hall : Permutation (map Val results) futures).
  { rewrite Hm. rewrite (Permutation_map _ Hperm). now rewrite map_nth_seq. }
  exists results. simpl in E. refine (conj E (conj _ (conj _ Hall))).
  - apply Permutation_length in Hall. rewrite !length_map in Hall. lia.
  - pose (address := fun r : Result (string * string) =>
                       match r with Val p => fst p | Exc _ => EmptyString end).
    apply (Permutation_map address) in Hall. rewrite map_map in Hall. simpl in Hall.
    rewrite Hall. unfold futures. rewrite map_map.
    rewrite (map_ext_in _ snd).
    + now rewrite map_snd_enumerate.
    + intros [i email] Hin. simpl.
      destruct (Hpair i email Hin) as (message & t & ->). reflexivity.
Qed.

End Batches.

(** ** The main program *)

(** X8.  On a disk that accepts every write, the main program of emailv12.py
    and of emailv13.py ends normally once [get_user_emails] has returned,
    in whatever order [as_completed] yields the futures: the batch has one
    outcome per address entered, the valid file holds the outcomes with
    status "Valid" and the invalid file all the others, and when no address
    was entered nothing is written. *)
Theorem main_writes_every_outcome (stdin : list string) (order : list nat)
    (nets : nat -> Net) (disk : Disk) (email_list : list string) :
  (forall l sheet, disk l sheet = true) ->
  Permutation order (seq 0 (List.length email_list)) ->
  let written (results : list (string * string)) (log : Written) :=
    Permutation (map fst results) email_list /\
    rows_written "outputs/valid_emails.xlsx" log
    = pair_rows (filter is_valid_row results) /\
    rows_written "outputs/invalid_emails.xlsx" log
    = pair_rows (filter (fun p => negb (is_valid_row p)) results) /\
    (email_list = [] -> log = []) in
  (get_user_emails stdin = Some email_list ->
   exists results log,
     Emailv12.validate_emails order nets email_list = Val results /\
     Emailv12.main stdin order nets disk = Some (Val tt, log) /\
     written results log) /\
  (Emailv13.get_user_emails stdin = Some email_list ->
   exists results log,
     Emailv13.validate_emails order nets email_list = Val results /\
     Emailv13.main stdin order nets disk = Some (Val tt, log) /\
     written results log).
Proof.
  intros Hdisk Hperm written. subst written. cbv beta.
  assert (H12 : exists results,
             Emailv12.validate_emails order nets email_list = Val results /\
             Permutation (map fst results) email_list).
  { destruct (run_batch_total 50 Emailv12.validate_email order nets email_list)
      as (results & E & _ & Hp & _).
    - auto with arith.
    - exact Hperm.
    - intros email net. apply (emailv12_validate_email net email []).
    - now exists results. }
  assert (H13 : exists results,
             Emailv13.validate_emails order nets email_list = Val results /\
             Permutation (map fst results) email_list).
  { destruct (run_batch_total 50 Emailv13.validate_email order nets email_list)
      as (results & E & _ & Hp & _).
    - auto with arith.
    - exact Hperm.
    - intros email net. apply (emailv13_validate_email net email []).
    - now exists results. }
  split; intros Hin.
  - destruct H12 as (results & E & Hp).
    unfold Emailv12.main. rewrite Hin, E.
    destruct email_list as [|email email_list]; cbn [some].
    + apply Permutation_sym, Permutation_nil in Hp.
      destruct results; [|discriminate].
      exists [], []. repeat split; reflexivity.
    + destruct (save_to_excel_shares results "outputs/valid_emails.xlsx"
                  "outputs/invalid_emails.xlsx" disk [] eq_refl Hdisk)
        as (_ & (log & El & Hv & Hi & _) & _).
      exists results, log. rewrite El. repeat split; try assumption. discriminate.
  - destruct H13 as (results & E & Hp).
    unfold Emailv13.main. rewrite Hin, E.
    destruct email_list as [|email email_list]; cbn [some].
    + apply Permutation_sym, Permutation_nil in Hp.
      destruct results; [|discriminate].
      exists [], []. repeat split; reflexivity.
    + destruct (save_to_excel_shares results "outputs/valid_emails.xlsx"
                  "outputs/invalid_emails.xlsx" disk [] eq_refl Hdisk)
        as (_ & _ & (log & El & Hv & Hi & _)).
      exists results, log. rewrite El. repeat split; try assumption. discriminate.
Qed.

Lemma main_writes_every_outcome_witness :
  (forall (l : Written) (sheet : Sheet), (fun _ _ => true) l sheet = true) /\
  Permutation [1; 0] (seq 0 (List.length ["a@b.c"; "bad syntax@@x"])) /\
  exists results log,
    Emailv12.validate_emails [1; 0] (fun _ => steady_net one_mx true 250)
      ["a@b.c"; "bad syntax@@x"] = Val results /\
    Emailv12.main ["a@b.c"; "bad syntax@@x"; "done"] [1; 0]
      (fun _ => steady_net one_mx true 250) (fun _ _ => true) = Some (Val tt, log) /\
    Permutation (map fst results) ["a@b.c"; "bad syntax@@x"].
Proof.
  refine (conj (fun _ _ => eq_refl) (conj (perm_swap 0 1 []) _)).
  destruct (main_writes_every_outcome ["a@b.c"; "bad syntax@@x"; "done"] [1; 0]
              (fun _ => steady_net one_mx true 250) (fun _ _ => true)
              ["a@b.c"; "bad syntax@@x"] (fun _ _ => eq_refl) (perm_swap 0 1 []))
    as (H & _).
  destruct (H eq_refl) as (results & log & E1 & E2 & Hp & _).
  now exists results, log.
Defined.

(** ** Runs of [validate_email] *)

(** X9.  In the five variants a run that answers "No MX records found" has
    opened no SMTP connection. *)
Theorem no_mail_server_no_connection (net : Net) (email : string) (w : Transcript) :
  check_syntax email = true ->
  let silent {A} (run : Result (A * string) * Transcript) :=
    exists r t, run = (r, w ++ t) /\
      (message_of r = Some "No MX records found" -> connects t = 0) in
  silent (Eemail.validate_email email net w) /\
  silent (Eeemail2.validate_email email net w) /\
  silent (Emailv8.validate_email email net w) /\
  silent (Emailv12.validate_email email net w) /\
  silent (Emailv13.validate_email email net w).
Proof.
  intros Hsyn silent. subst silent. cbv beta.
  refine (conj _ (conj _ (conj _ (conj _ _)))).
  - destruct (eemail_run_facts net email w Hsyn) as (r & t & E & _ & _ & _ & H & _).
    now exists r, t.
  - destruct (eeemail2_run_facts net email w Hsyn) as (r & t & E & _ & _ & _ & H & _).
    now exists r, t.
  - destruct (emailv8_run_facts net email w Hsyn) as (r & t & E & _ & _ & _ & H & _).
    now exists r, t.
  - destruct (emailv12_run_facts net email w Hsyn)
      as (m & t & E & _ & _ & _ & _ & _ & H & _).
    exists (Val (email, m)), t. split; [exact E|]. intros [= ->]. now apply H.
  - destruct (emailv13_run_facts net email Hsyn w)
      as (m & t & E & _ & _ & _ & _ & _ & H & _).
    exists (Val (email, m)), t. split; [exact E|]. intros [= ->]. now apply H.
Qed.

Lemma no_mail_server_no_connection_witness :
  check_syntax "nodomain@nonexistent-tld-xyz.invalid" = true /\
  exists r t,
    Emailv13.validate_email "nodomain@nonexistent-tld-xyz.invalid"
      (steady_net (Exc NXDOMAIN) true 250) [] = (r, [] ++ t) /\
    (message_of r = Some "No MX records found" -> connects t = 0).
Proof.
  split; [reflexivity|].
  apply (no_mail_server_no_connection (steady_net (Exc NXDOMAIN) true 250)
           "nodomain@nonexistent-tld-xyz.invalid" [] eq_refl).
Defined.

(** X10.  In eemail.py, "eeemail 2.py" and emailv8.py every RCPT of a run of
    [validate_email] is for fake-email@gmail.com or for fake-email at the
    domain of the address: the address under validation is named in no RCPT
    command, unless it is itself one of these two made-up addresses.  Such a
    run opens two SMTP sessions at most and never sleeps. *)
Theorem only_made_up_recipient (net : Net) (email : string) (w : Transcript) :
  check_syntax email = true ->
  let made_up {A} (run : Result (A * string) * Transcript) :=
    exists r t, run = (r, w ++ t) /\
      Forall (fun recipient =>
                recipient = "fake-email@gmail.com"
                \/ recipient = ("fake-email@" ++ domain_part email)%string)
             (rcpt_recipients t) /\
      (email <> "fake-email@gmail.com" ->
       email <> ("fake-email@" ++ domain_part email)%string ->
       ~ In email (rcpt_recipients t)) /\
      connects t <= 2 /\ sleeps t = [] in
  made_up (Eemail.validate_email email net w) /\
  made_up (Eeemail2.validate_email email net w) /\
  made_up (Emailv8.validate_email email net w).
Proof.
  intros Hsyn made_up. subst made_up. cbv beta.
  assert (N : forall t,
             Forall (fun recipient =>
                       recipient = "fake-email@gmail.com"
                       \/ recipient = ("fake-email@" ++ domain_part email)%string)
                    (rcpt_recipients t) ->
             email <> "fake-email@gmail.com" ->
             email <> ("fake-email@" ++ domain_part email)%string ->
             ~ In email (rcpt_recipients t)).
  { intros t R N1 N2 Hin. rewrite Forall_forall in R.
    destruct (R email Hin); contradiction. }
  refine (conj _ (conj _ _)).
  - destruct (eemail_run_facts net email w Hsyn) as (r & t & E & R & S & C & _).
    exists r, t. repeat split; auto.
  - destruct (eeemail2_run_facts net email w Hsyn) as (r & t & E & R & S & C & _).
    exists r, t. repeat split; auto.
  - destruct (emailv8_run_facts net email w Hsyn) as (r & t & E & R & S & C & _).
    exists r, t. repeat split; auto.
Qed.

Lemma only_made_up_recipient_witness :
  check_syntax "user@example.com" = true /\
  exists r t,
    Eemail.validate_email "user@example.com" (steady_net one_mx true 550) [] = (r, [] ++ t) /\
    ~ In "user@example.com" (rcpt_recipients t) /\
    connects t <= 2 /\ sleeps t = [].
Proof.
  split; [reflexivity|].
  destruct (only_made_up_recipient (steady_net one_mx true 550) "user@example.com" [] eq_refl)
    as ((r & t & E & _ & N & C & S) & _).
  exists r, t. refine (conj E (conj (N _ _) (conj C S))).
  - discriminate.
  - intros H. vm_compute in H. discriminate H.
Defined.

(** X11.  A run of [validate_email] of emailv13.py on an accepted address
    always returns an outcome for that address, with one of three messages.
    It makes at most 6 lookups, opens at most 3 SMTP sessions and sleeps at
    most 6 seconds; every RCPT names the address itself.  "No MX records
    found" comes after exactly 3 lookups and 3 seconds of sleep, and "Cannot
    connect to mail server" after at least 3 seconds of sleep. *)
Theorem emailv13_run_bounds (net : Net) (email : string) (w : Transcript) :
  check_syntax email = true ->
  exists message t,
    Emailv13.validate_email email net w = (Val (email, message), w ++ t) /\
    In message ["No MX records found"; "Cannot connect to mail server"; "Valid"] /\
    Forall (eq email) (rcpt_recipients t) /\
    lookups t <= 6 /\ connects t <= 3 /\ (0 <= slept t <= 6)%Z /\
    (message = "No MX records found" -> lookups t = 3 /\ slept t = 3%Z) /\
    (message = "Cannot connect to mail server" -> (3 <= slept t)%Z).
Proof.
  intros Hsyn.
  destruct (emailv13_run_facts net email Hsyn w)
    as (m & t & E & Hm & R & L & C & S & Hno & Hcc & _).
  exists m, t. repeat split; try assumption; try lia.
  - now apply Hno.
  - now apply Hno.
Qed.

Lemma emailv13_run_bounds_witness :
  check_syntax "user@example.com" = true /\
  exists message t,
    Emailv13.validate_email "user@example.com" (steady_net one_mx false 250) []
    = (Val ("user@example.com", message), [] ++ t) /\
    lookups t <= 6.
Proof.
  split; [reflexivity|].
  destruct (emailv13_run_bounds (steady_net one_mx false 250) "user@example.com" [] eq_refl)
    as (message & t & E & _ & _ & L & _).
  now exists message, t.
Defined.

(** X12.  When [validate_email] of emailv13.py answers "Valid", the last SMTP
    session of the run sent RCPT for the address itself, was answered with
    250 or 251 and was closed without an exception. *)
Theorem emailv13_valid_was_accepted (net : Net) (email : string) (w : Transcript)
    (t : Transcript) :
  check_syntax email = true ->
  Emailv13.validate_email email net w = (Val (email, "Valid"), w ++ t) ->
  exists c, probe_code email t = Some c /\ (c = 250 \/ c = 251)%Z.
Proof.
  intros Hsyn H.
  destruct (emailv13_run_facts net email Hsyn w)
    as (m & t' & E & _ & _ & _ & _ & _ & _ & _ & Hv).
  rewrite E in H. injection H as -> Ht. apply app_inv_head in Ht. subst t'.
  now apply Hv.
Qed.

Lemma emailv13_valid_was_accepted_witness :
  check_syntax "user@example.com" = true /\
  exists c,
    probe_code "user@example.com"
      [Resolve "example.com" one_mx; Resolve "example.com" one_mx;
       Connect "mx.example.com." true; EhloOrHelo true;
       Mail "your-email@example.com" (Some (250%Z, "ok"));
       Rcpt "user@example.com" (Some (251%Z, "ok")); Exit true] = Some c /\
    (c = 250 \/ c = 251)%Z.
Proof.
  split; [reflexivity|].
  apply (emailv13_valid_was_accepted (steady_net one_mx true 251) "user@example.com" []);
    reflexivity.
Defined.

(** X13.  When [validate_email] of emailv12.py answers "Valid", the last SMTP
    session of the run was closed without an exception after an RCPT that was
    answered with 250, for the made-up recipient nonexistent at the domain or
    for the address itself. *)
Theorem emailv12_valid_was_accepted (net : Net) (email : string) (w : Transcript)
    (t : Transcript) :
  check_syntax email = true ->
  Emailv12.validate_email email net w = (Val (email, "Valid"), w ++ t) ->
  probe_code ("nonexistent@" ++ domain_part email) t = Some 250%Z
  \/ probe_code email t = Some 250%Z.
Proof.
  intros Hsyn H.
  destruct (emailv12_run_facts net email w Hsyn)
    as (m & t' & E & _ & _ & _ & _ & _ & _ & Hv).
  rewrite E in H. injection H as -> Ht. apply app_inv_head in Ht. subst t'.
  now apply Hv.
Qed.

Lemma emailv12_valid_was_accepted_witness :
  check_syntax "user@example.com" = true /\
  (probe_code ("nonexistent@" ++ domain_part "user@example.com")
     (snd (Emailv12.validate_email "user@example.com" (steady_net one_mx true 250) []))
   = Some 250%Z
   \/ probe_code "user@example.com"
        (snd (Emailv12.validate_email "user@example.com" (steady_net one_mx true 250) []))
      = Some 250%Z).
Proof.
  split; [reflexivity|].
  apply (emailv12_valid_was_accepted (steady_net one_mx true 250) "user@example.com" []);
    reflexivity.
Defined.

(** X14.  A run of [validate_email] of emailv12.py on an accepted address
    always returns an outcome for that address; the message is never
    "Domain has catch-all enabled".  The run makes at most 3 lookups, opens
    at most 2 SMTP sessions and never sleeps, and every RCPT is for
    nonexistent at the domain or for the address itself. *)
Theorem emailv12_run_bounds (net : Net) (email : string) (w : Transcript) :
  check_syntax email = true ->
  exists message t,
    Emailv12.validate_email email net w = (Val (email, message), w ++ t) /\
    In message ["No MX records found"; "Cannot connect to mail server"; "Valid"] /\
    Forall (fun recipient => recipient = ("nonexistent@" ++ domain_part email)%string
                             \/ recipient = email)
           (rcpt_recipients t) /\
    sleeps t = [] /\ lookups t <= 3 /\ connects t <= 2.
Proof.
  intros Hsyn.
  destruct (emailv12_run_facts net email w Hsyn)
    as (m & t & E & Hm & R & S & L & C & _).
  now exists m, t.
Qed.

Lemma emailv12_run_bounds_witness :
  check_syntax "user@example.com" = true /\
  exists message t,
    Emailv12.validate_email "user@example.com" (steady_net one_mx true 550) []
    = (Val ("user@example.com", message), [] ++ t) /\
    lookups t <= 3.
Proof.
  split; [reflexivity|].
  destruct (emailv12_run_bounds (steady_net one_mx true 550) "user@example.com" [] eq_refl)
    as (message & t & E & _ & _ & _ & L & _).
  now exists message, t.
Defined.

(** X15.  On an accepted address, [validate_email] of eemail.py raises
    exactly when the first MX lookup raises something other than NoAnswer or
    NXDOMAIN, a timeout included, and [validate_email] of emailv8.py exactly
    when that lookup raises something other than NoAnswer, NXDOMAIN or
    Timeout.  The exception is the one of the lookup and the run stops there;
    an exception of any later call is turned into an outcome.  In
    "eeemail 2.py" an exception that escapes is none of the three either,
    and no SMTP connection was opened before it. *)
Theorem lookup_error_escapes (net : Net) (email : string) (w : Transcript) :
  check_syntax email = true ->
  let first_lookup := net_resolve net w (domain_part email) in
  let stopped e := w ++ [Resolve (domain_part email) (Exc e)] in
  (forall e, first_lookup = Exc e -> ~ In e [NoAnswer; NXDOMAIN] ->
             Eemail.validate_email email net w = (Exc e, stopped e)) /\
  ((forall e, first_lookup = Exc e -> In e [NoAnswer; NXDOMAIN]) ->
   exists is_valid message t,
     Eemail.validate_email email net w = (Val (is_valid, message), w ++ t)) /\
  (forall e, first_lookup = Exc e -> ~ In e [NoAnswer; NXDOMAIN; Timeout] ->
             Emailv8.validate_email email net w = (Exc e, stopped e)) /\
  ((forall e, first_lookup = Exc e -> In e [NoAnswer; NXDOMAIN; Timeout]) ->
   exists message t,
     Emailv8.validate_email email net w = (Val (email, message), w ++ t)) /\
  (exists r t, Eeemail2.validate_email email net w = (r, w ++ t) /\
     forall e, r = Exc e -> ~ In e [NoAnswer; NXDOMAIN; Timeout] /\ connects t = 0).
Proof.
  intros Hsyn first_lookup stopped. subst first_lookup stopped. cbv beta.
  refine (conj _ (conj _ (conj _ (conj _ _)))).
  - intros e. now apply eemail_raises.
  - now apply eemail_returns.
  - intros e. now apply emailv8_raises.
  - now apply emailv8_returns.
  - destruct (eeemail2_run_facts net email w Hsyn) as (r & t & E & _ & _ & _ & _ & H).
    exists r, t. split; [exact E|]. intros e He. destruct (H e He) as (H1 & H2 & _).
    now split.
Qed.

Lemma lookup_error_escapes_witness :
  check_syntax "user@example.com" = true /\
  Eemail.validate_email "user@example.com" (steady_net (Exc Timeout) true 250) []
  = (Exc Timeout, [] ++ [Resolve (domain_part "user@example.com") (Exc Timeout)]).
Proof.
  split; [reflexivity|].
  destruct (lookup_error_escapes (steady_net (Exc Timeout) true 250) "user@example.com" []
              eq_refl) as (H & _).
  apply H; [reflexivity|]. cbn. intuition discriminate.
Defined.

Lemma emailv8_validate_email_rejected (net : Net) (email : string) (w : Transcript) :
  check_syntax email = false ->
  Emailv8.validate_email email net w = (Val (email, "Invalid syntax"), w).
Proof. intros H. unfold Emailv8.validate_email. now rewrite H. Qed.

(** X16.  The batch of emailv8.py, for any number of workers k >= 1 and any
    order in which [as_completed] yields the futures: when no accepted
    address has a first MX lookup that raises something other than NoAnswer,
    NXDOMAIN or Timeout, the batch returns one outcome per address; when one
    address has such a lookup, [future.result()] raises it again and the
    whole batch raises, whatever the other addresses gave. *)
Theorem emailv8_batch_all_or_nothing (k : nat) (order : list nat)
    (nets : nat -> Net) (email_list : list string) :
  1 <= k -> Permutation order (seq 0 (List.length email_list)) ->
  ((forall i email e,
      nth_error email_list i = Some email -> check_syntax email = true ->
      net_resolve (nets i) [] (domain_part email) = Exc e ->
      In e [NoAnswer; NXDOMAIN; Timeout]) ->
   one_outcome_per_address Emailv8.validate_email nets email_list
     (Pool.run_batch k Emailv8.validate_email order nets email_list)) /\
  (forall i email e,
     nth_error email_list i = Some email -> check_syntax email = true ->
     net_resolve (nets i) [] (domain_part email) = Exc e ->
     ~ In e [NoAnswer; NXDOMAIN; Timeout] ->
     exists e', Pool.run_batch k Emailv8.validate_email order nets email_list = Exc e') /\
  Emailv8.validate_emails = Pool.run_batch 10 Emailv8.validate_email.
Proof.
  intros Hk Hperm. refine (conj _ (conj _ eq_refl)).
  - intros H. apply run_batch_returns; [exact Hk | exact Hperm |].
    intros i email Hi. destruct (check_syntax email) eqn:Hsyn.
    + apply (emailv8_returns (nets i) email [] Hsyn).
      intros e He. exact (H i email e Hi Hsyn He).
    + exists "Invalid syntax", []. now apply emailv8_validate_email_rejected.
  - intros i email e Hi Hsyn He Hn.
    apply (run_batch_raises k Emailv8.validate_email order nets email_list i email e Hperm Hi).
    now rewrite (emailv8_raises (nets i) email [] Hsyn e He Hn).
Qed.

Lemma emailv8_batch_all_or_nothing_witness :
  1 <= 10 /\
  Permutation [2; 1; 0]
    (seq 0 (List.length ["good@example.com"; "unlucky@example.com"; "bad syntax@@x"])) /\
  exists e',
    Pool.run_batch 10 Emailv8.validate_email [2; 1; 0]
      (fun i => if (i =? 1)%nat then steady_net (Exc OtherException) true 250
                else steady_net one_mx true 550)
      ["good@example.com"; "unlucky@example.com"; "bad syntax@@x"] = Exc e'.
Proof.
  assert (P : Permutation [2; 1; 0] [0; 1; 2]).
  { change [2; 1; 0] with (rev [0; 1; 2]). apply Permutation_sym, Permutation_rev. }
  refine (conj _ (conj P _)); [auto with arith|].
  destruct (emailv8_batch_all_or_nothing 10 [2; 1; 0]
              (fun i => if (i =? 1)%nat then steady_net (Exc OtherException) true 250
                        else steady_net one_mx true 550)
              ["good@example.com"; "unlucky@example.com"; "bad syntax@@x"])
    as (_ & H & _); [auto with arith | exact P |].
  apply (H 1 "unlucky@example.com" OtherException); try reflexivity.
  cbn. intuition discriminate.
Defined.

(** X18.  When an address entered has a first MX lookup that raises something
    other than NoAnswer, NXDOMAIN or Timeout, the main program of emailv8.py
    ends with an exception and writes no file, whatever the outcomes of the
    other addresses and the order in which the futures are yielded. *)
Theorem emailv8_main_aborts (stdin : list string) (order : list nat)
    (nets : nat -> Net) (disk : Disk) (email_list : list string)
    (i : nat) (email : string) (e : Exn) :
  get_user_emails stdin = Some email_list ->
  Permutation order (seq 0 (List.length email_list)) ->
  nth_error email_list i = Some email -> check_syntax email = true ->
  net_resolve (nets i) [] (domain_part email) = Exc e ->
  ~ In e [NoAnswer; NXDOMAIN; Timeout] ->
  exists e', Emailv8.main stdin order nets disk = Some (Exc e', []).
Proof.
  intros Hin Hperm Hi Hsyn He Hn.
  destruct (run_batch_raises 10 Emailv8.validate_email order nets email_list i email e)
    as (e' & E); [exact Hperm | exact Hi | |].
  { now rewrite (emailv8_raises (nets i) email [] Hsyn e He Hn). }
  exists e'. unfold Emailv8.main. rewrite Hin.
  destruct email_list as [|x l]; [destruct i; discriminate|]. cbn [some].
  change (Emailv8.validate_emails order nets (x :: l))
    with (Pool.run_batch 10 Emailv8.validate_email order nets (x :: l)).
  now rewrite E.
Qed.

Lemma emailv8_main_aborts_witness :
  get_user_emails ["good@example.com"; "unlucky@example.com"; "done"]
  = Some ["good@example.com"; "unlucky@example.com"] /\
  Permutation [1; 0] (seq 0 (List.length ["good@example.com"; "unlucky@example.com"])) /\
  exists e',
    Emailv8.main ["good@example.com"; "unlucky@example.com"; "done"] [1; 0]
      (fun i => if (i =? 1)%nat then steady_net (Exc OtherException) true 250
                else steady_net one_mx true 550)
      (fun _ _ => true) = Some (Exc e', []).
Proof.
  refine (conj eq_refl (conj (perm_swap 0 1 []) _)).
  apply (emailv8_main_aborts ["good@example.com"; "unlucky@example.com"; "done"]
           [1; 0]
           (fun i => if (i =? 1)%nat then steady_net (Exc OtherException) true 250
                     else steady_net one_mx true 550)
           (fun _ _ => true) ["good@example.com"; "unlucky@example.com"]
           1 "unlucky@example.com" OtherException); try reflexivity.
  - apply perm_swap.
  - cbn. intuition discriminate.
Defined.

(** X17.  [check_catch_all] of eemail.py, "eeemail 2.py" and emailv8.py never
    raises and looks up the domain as given.  For a domain that is gmail.com
    in any letter case it sends MAIL FROM test@gmail.com and RCPT for
    fake-email@gmail.com and answers whether the code of the RCPT reply
    differs from 550; for every other domain it sends MAIL FROM
    test@example.com and RCPT for fake-email at that domain and answers
    whether the code is 250.  On a network that answers the calls of such a
    session these are the calls that the function makes, in that order; and
    no lookup, MAIL FROM or RCPT of any run names another domain, sender or
    recipient. *)
Theorem catch_all_probe_addresses (net : Net) (domain : string) (w : Transcript) :
  let sender := if is_gmail_domain domain then "test@gmail.com" else "test@example.com" in
  let recipient := if is_gmail_domain domain then "fake-email@gmail.com"
                   else ("fake-email@" ++ domain)%string in
  let verdict code :=
    if is_gmail_domain domain then negb (code =? 550)%Z else (code =? 250)%Z in
  let probes (run : Result bool * Transcript) :=
    exists b t, run = (Val b, w ++ t) /\
      Forall (eq domain) (resolved_domains t) /\
      Forall (eq sender) (mail_senders t) /\
      Forall (eq recipient) (rcpt_recipients t) in
  (probes (Eemail.check_catch_all domain net w) /\
   probes (Eeemail2.check_catch_all domain net w) /\
   probes (Emailv8.check_catch_all domain net w)) /\
  decided_by net (Eemail.check_catch_all domain) w
    (quit_session domain sender recipient) verdict /\
  decided_by net (Eeemail2.check_catch_all domain) w
    (after_timeouts domain (quit_session domain sender recipient)) verdict /\
  decided_by net (Emailv8.check_catch_all domain) w
    (with_session domain sender recipient) verdict.
Proof.
  intros sender recipient verdict probes. split.
  - subst sender recipient probes. cbv beta.
    unfold Eemail.check_catch_all, Eeemail2.check_catch_all, Emailv8.check_catch_all,
      Eeemail2.max_retries.
    cbn [Eeemail2.check_catch_all_loop].
    destruct (is_gmail_domain domain) eqn:G.
    all: refine (conj _ (conj _ _)).
    all: whole_run G.
    all: delta.
    all: cbn -[String.append].
    all: refine (conj _ (conj _ _)); repeat (apply Forall_cons || apply Forall_nil); reflexivity.
  - refine (conj _ (conj _ _)).
    + exact (eemail_catch_all_decided net domain w).
    + exact (eeemail2_catch_all_decided net domain w).
    + exact (emailv8_catch_all_decided net domain w).
Qed.

Lemma catch_all_probe_addresses_witness :
  Emailv8.check_catch_all "GMail.com" (steady_net one_mx true 550) []
  = (Val false,
     [] ++ [Resolve "GMail.com" one_mx; Connect "mx.example.com." true; EhloOrHelo true;
            Mail "test@gmail.com" (Some (250%Z, "ok"));
            Rcpt "fake-email@gmail.com" (Some (550%Z, "ok")); Exit true]).
Proof.
  destruct (catch_all_probe_addresses (steady_net one_mx true 550) "GMail.com" [])
    as (_ & _ & _ & H & _).
  apply (H 550%Z).
  - exists {| preference := 10; exchange := "mx.example.com." |}, [], (250%Z, "ok"), "ok".
    reflexivity.
  - vm_compute. repeat split.
Defined.
